(** * The provider adapter of src/services/ai.ts

    A shallow embedding of [performResearch], [performOpenAIResearch] and
    [performGeminiResearch], together with the fragment of the JavaScript
    data model they compute with: strings as sequences of UTF-16 code
    units, numbers as binary64 floats, plain objects as ordered property
    lists, [JSON.parse], object spread, truthiness, template-literal
    stringification and [try]/[catch]. *)

From Stdlib Require Import Floats ZArith NArith String Ascii List Bool Lia.
From Stdlib Require Import DecimalString.
Import ListNotations.

Set Implicit Arguments.

(** ** JavaScript strings *)

(** A JavaScript string is a finite sequence of 16-bit code units. *)
Definition jsstring : Type := list N.

(** The code units of an ASCII literal of the source text. *)
Fixpoint str (s : string) : jsstring :=
  match s with
  | EmptyString => []
  | String a rest => N_of_ascii a :: str rest
  end.

Module JsString.

Definition t := jsstring.

Definition eqb (a b : t) : bool :=
  if list_eq_dec N.eq_dec a b then true else false.

(** [a] occurs in [b] as a contiguous substring ([b.includes(a)]). *)
Definition includes (b a : t) : Prop :=
  exists pre post, b = pre ++ a ++ post.

(** The double quote character. *)
Definition dquote : t := [34%N].

(** The decimal spelling of a natural number, as used for the keys of
    array elements and of the characters of a string. *)
Definition of_nat (n : nat) : t := str (NilZero.string_of_uint (Nat.to_uint n)).

End JsString.

(** ** JavaScript values *)

(** The values the adapter handles: the primitives, arrays, plain objects
    and instances of [Error] and its subclasses; no value is a function.
    A plain object is the list of its own string-keyed properties in
    enumeration order.  [VError name props] is an instance whose prototype
    chain is that of an error class: [name] is the [name] it inherits and
    [props] are its own properties ([message] among them when the
    constructor was given one; the [stack] an engine adds is left out, it
    is read nowhere). *)
Inductive Value : Type :=
| VUndefined
| VNull
| VBool (b : bool)
| VNumber (n : float)
| VString (s : jsstring)
| VArray (elems : list Value)
| VObject (props : list (jsstring * Value))
| VError (name : jsstring) (props : list (jsstring * Value)).

Definition Props := list (jsstring * Value).

(** An instance of the error class named [name], constructed with the
    string [message]. *)
Definition ErrorInstance (name : string) (message : jsstring) : Value :=
  VError (str name) [(str "message", VString message)].

(** [new Error(message)] *)
Definition Error (message : jsstring) : Value := ErrorInstance "Error" message.

(** The TypeError the engine throws, with the message it gives it. *)
Definition TypeError (message : jsstring) : Value :=
  ErrorInstance "TypeError" message.

(** ToBoolean: [undefined], [null], [false], [0], [-0], [NaN] and the empty
    string are falsy, everything else is truthy. *)
Definition number_truthy (n : float) : bool :=
  negb (PrimFloat.eqb n 0%float || PrimFloat.is_nan n).

Definition truthy (v : Value) : bool :=
  match v with
  | VUndefined | VNull => false
  | VBool b => b
  | VNumber n => number_truthy n
  | VString s => match s with [] => false | _ => true end
  | VArray _ | VObject _ | VError _ _ => true
  end.

(** [a || b] on values. *)
Definition or_else (a b : Value) : Value := if truthy a then a else b.

(** *** Property keys and property lists *)

Definition is_digit (c : N) : bool := ((48 <=? c) && (c <=? 57))%N.

Fixpoint digits_value (acc : N) (s : jsstring) : N :=
  match s with
  | [] => acc
  | c :: rest => digits_value (10 * acc + (c - 48)) rest
  end.

(** An array index is the canonical decimal spelling of an integer in
    [0, 2^32 - 2]; such keys are enumerated first, in ascending order. *)
Definition array_index (k : jsstring) : option N :=
  match k with
  | [] => None
  | c :: rest =>
      if forallb is_digit k && (negb (c =? 48)%N || match rest with [] => true | _ => false end)
         && (length k <=? 10)%nat
      then let n := digits_value 0 k in
           if (n <=? 4294967294)%N then Some n else None
      else None
  end.

Fixpoint lookup (k : jsstring) (ps : Props) : option Value :=
  match ps with
  | [] => None
  | (k', v) :: rest => if JsString.eqb k k' then Some v else lookup k rest
  end.

Definition has_key (k : jsstring) (ps : Props) : bool :=
  match lookup k ps with Some _ => true | None => false end.

Fixpoint replace (k : jsstring) (v : Value) (ps : Props) : Props :=
  match ps with
  | [] => []
  | (k', v') :: rest =>
      if JsString.eqb k k' then (k', v) :: rest else (k', v') :: replace k v rest
  end.

(** Where a new integer-indexed property goes: before the first property
    that is not an index or that has a larger index. *)
Fixpoint insert_index (i : N) (k : jsstring) (v : Value) (ps : Props) : Props :=
  match ps with
  | [] => [(k, v)]
  | (k', v') :: rest =>
      match array_index k' with
      | Some j => if (j <? i)%N then (k', v') :: insert_index i k v rest
                  else (k, v) :: ps
      | None => (k, v) :: ps
      end
  end.

(** CreateDataProperty on an ordinary object: an existing property keeps
    its place and takes the new value; a new one is enumerated after the
    existing ones (integer indices first). *)
Definition define (k : jsstring) (v : Value) (ps : Props) : Props :=
  if has_key k ps then replace k v ps
  else match array_index k with
       | Some i => insert_index i k v ps
       | None => ps ++ [(k, v)]
       end.

Fixpoint indexed (i : nat) (vs : list Value) : Props :=
  match vs with
  | [] => []
  | v :: rest => (JsString.of_nat i, v) :: indexed (S i) rest
  end.

(** The own enumerable properties that [...v] copies: those of an object,
    the elements of an array, the code units of a string; of an error
    instance its own properties but [message], which the [Error]
    constructor defines as not enumerable; nothing for the other
    primitives. *)
Definition own_properties (v : Value) : Props :=
  match v with
  | VObject ps => ps
  | VArray vs => indexed 0 vs
  | VString s => indexed 0 (map (fun c => VString [c]) s)
  | VError _ ps =>
      filter (fun kv => negb (JsString.eqb (fst kv) (str "message"))) ps
  | _ => []
  end.

(** [{ ...target, ...source }]: each property of [source] is defined on
    the object under construction, in order. *)
Definition spread (target : Props) (source : Value) : Props :=
  fold_left (fun acc kv => define (fst kv) (snd kv) acc) (own_properties source) target.

(** ** Completions: normal return or a thrown value *)

Inductive Completion (A : Type) : Type :=
| Normal (a : A)
| Throw (reason : Value).

Arguments Normal {A} a.
Arguments Throw {A} reason.

Definition bind {A B} (c : Completion A) (k : A -> Completion B) : Completion B :=
  match c with
  | Normal a => k a
  | Throw e => Throw e
  end.

(** [try { body } catch (e) { handler }] *)
Definition try_catch {A} (body : Completion A) (handler : Value -> Completion A)
  : Completion A :=
  match body with
  | Normal a => Normal a
  | Throw e => handler e
  end.

Declare Scope js_scope.
Delimit Scope js_scope with js.
Notation "x <- c ;; k" := (bind c (fun x => k))
  (at level 61, c at next level, right associativity) : js_scope.

(** ** Code that acts on the outside *)

(** A computation that performs events of type [E] on its way: the events
    in the order performed, and how it completes. *)
Section Traced.

Variable E : Type.

Definition Traced (A : Type) : Type := (list E * Completion A)%type.

(** A computation that performs nothing. *)
Definition pure {A} (c : Completion A) : Traced A := ([], c).

(** The computation that performs [e]. *)
Definition emit (e : E) : Traced unit := ([e], Normal tt).

(** [m] and then [k]; when [m] throws, [k] does not run. *)
Definition and_then {A B} (m : Traced A) (k : A -> Traced B) : Traced B :=
  match snd m with
  | Normal a => (fst m ++ fst (k a), snd (k a))
  | Throw e => (fst m, Throw e)
  end.

(** [try { body } catch (e) { handler }] *)
Definition try_catch_traced {A} (body : Traced A) (handler : Value -> Traced A)
  : Traced A :=
  match snd body with
  | Normal a => (fst body, Normal a)
  | Throw e => (fst body ++ fst (handler e), snd (handler e))
  end.

(** [try { body } finally { finalizer }] *)
Definition try_finally {A} (body : Traced A) (finalizer : Traced unit)
  : Traced A :=
  match snd finalizer with
  | Normal _ => (fst body ++ fst finalizer, snd body)
  | Throw e => (fst body ++ fst finalizer, Throw e)
  end.

End Traced.

Arguments pure {E A} c.
Arguments emit {E} e.
Arguments and_then {E A B} m k.
Arguments try_catch_traced {E A} body handler.
Arguments try_finally {E A} body finalizer.

(** The events of [m], seen as events of another kind. *)
Definition map_events {E F A} (f : E -> F) (m : Traced E A) : Traced F A :=
  (map f (fst m), snd m).

Notation "x <~ c ;; k" := (and_then c (fun x => k))
  (at level 61, c at next level, right associativity) : js_scope.
Notation "c ;;; k" := (and_then c (fun _ => k))
  (at level 61, right associativity) : js_scope.

(** ** JSON.parse *)

Module JSON.

(** [c] is the code unit of the ASCII character [a]. *)
Definition isc (a : ascii) (c : N) : bool := N.eqb c (N_of_ascii a).
Arguments isc a%_char c%_N.

(** JSON white space: space, tab, line feed, carriage return. *)
Definition is_ws (c : N) : bool :=
  ((c =? 32) || (c =? 9) || (c =? 10) || (c =? 13))%N.

Fixpoint skip_ws (s : jsstring) : jsstring :=
  match s with
  | c :: rest => if is_ws c then skip_ws rest else s
  | [] => []
  end.

(** [expect lit s] removes the prefix [lit] from [s]. *)
Fixpoint expect (lit s : jsstring) : option jsstring :=
  match lit, s with
  | [], _ => Some s
  | l :: lit', c :: s' => if (l =? c)%N then expect lit' s' else None
  | _ :: _, [] => None
  end.

Fixpoint take_digits (s : jsstring) : jsstring * jsstring :=
  match s with
  | c :: rest =>
      if is_digit c
      then let (ds, r) := take_digits rest in (c :: ds, r)
      else ([], s)
  | [] => ([], [])
  end.

(** The binary64 value nearest to [(-1)^neg * m * 10^e], ties to even. *)
Definition decimal_to_number (neg : bool) (m : N) (e : Z) : float :=
  match m with
  | N0 => if neg then (-0)%float else 0%float
  | Npos p =>
      match e with
      | Zneg k =>
          SF2Prim (SFdiv prec emax (S754_finite neg p 0)
                         (S754_finite false (10 ^ k)%positive 0))
      | _ =>
          SF2Prim (binary_normalize prec emax
                     ((if neg then Zneg p else Zpos p) * 10 ^ e)%Z 0 false)
      end
  end.

(** The exponent part of a number: [e] or [E], an optional sign, digits. *)
Definition parse_exponent (s : jsstring) : option (Z * jsstring) :=
  match s with
  | c :: rest =>
      if isc "e" c || isc "E" c then
        let '(sign, rest') :=
          match rest with
          | d :: r => if isc "-" d then (true, r)
                      else if isc "+" d then (false, r)
                      else (false, rest)
          | [] => (false, rest)
          end in
        match take_digits rest' with
        | ([], _) => None
        | (ds, r) =>
            let n := Z.of_N (digits_value 0 ds) in
            Some (if sign then (- n)%Z else n, r)
        end
      else Some (0%Z, s)
  | [] => Some (0%Z, s)
  end.

(** The fraction part of a number: a dot and at least one digit. *)
Definition parse_fraction (s : jsstring) : option (jsstring * jsstring) :=
  match s with
  | c :: rest =>
      if isc "." c then
        match take_digits rest with
        | ([], _) => None
        | (ds, r) => Some (ds, r)
        end
      else Some ([], s)
  | [] => Some ([], s)
  end.

(** The integer part of a number: [0], or a non-zero digit and digits. *)
Definition parse_int (s : jsstring) : option (jsstring * jsstring) :=
  match s with
  | c :: rest =>
      if isc "0" c then Some ([c], rest)
      else if is_digit c then Some (take_digits s)
      else None
  | [] => None
  end.

Definition parse_number (s : jsstring) : option (float * jsstring) :=
  let '(neg, s1) :=
    match s with
    | c :: rest => if isc "-" c then (true, rest) else (false, s)
    | [] => (false, s)
    end in
  match parse_int s1 with
  | None => None
  | Some (int, s2) =>
      match parse_fraction s2 with
      | None => None
      | Some (frac, s3) =>
          match parse_exponent s3 with
          | None => None
          | Some (e, s4) =>
              Some (decimal_to_number neg (digits_value 0 (int ++ frac))
                      (e - Z.of_nat (length frac)), s4)
          end
      end
  end.

Definition hex_value (c : N) : option N :=
  if is_digit c then Some (c - 48)%N
  else if ((97 <=? c) && (c <=? 102))%N then Some (c - 87)%N
  else if ((65 <=? c) && (c <=? 70))%N then Some (c - 55)%N
  else None.

Definition hex4 (a b c d : N) : option N :=
  match hex_value a, hex_value b, hex_value c, hex_value d with
  | Some x, Some y, Some z, Some w => Some (((x * 16 + y) * 16 + z) * 16 + w)%N
  | _, _, _, _ => None
  end.

(** The single-character escapes. *)
Definition escape (c : N) : option N :=
  if isc "034" c then Some 34%N
  else if isc "\" c then Some 92%N
  else if isc "/" c then Some 47%N
  else if isc "b" c then Some 8%N
  else if isc "f" c then Some 12%N
  else if isc "n" c then Some 10%N
  else if isc "r" c then Some 13%N
  else if isc "t" c then Some 9%N
  else None.

Definition cons_result (c : N) (r : option (jsstring * jsstring))
  : option (jsstring * jsstring) :=
  match r with
  | Some (cs, rest) => Some (c :: cs, rest)
  | None => None
  end.

(** The characters of a string after its opening quote, up to and
    including the closing quote. *)
Fixpoint parse_chars (s : jsstring) : option (jsstring * jsstring) :=
  match s with
  | [] => None
  | c :: rest =>
      if isc "034" c then Some ([], rest)
      else if isc "\" c then
        match rest with
        | [] => None
        | e :: rest1 =>
            if isc "u" e then
              match rest1 with
              | h1 :: h2 :: h3 :: h4 :: rest2 =>
                  match hex4 h1 h2 h3 h4 with
                  | Some u => cons_result u (parse_chars rest2)
                  | None => None
                  end
              | _ => None
              end
            else
              match escape e with
              | Some u => cons_result u (parse_chars rest1)
              | None => None
              end
        end
      else if (c <? 32)%N then None
      else cons_result c (parse_chars rest)
  end.

Definition literal (lit : string) (v : Value) (s : jsstring)
  : option (Value * jsstring) :=
  match expect (str lit) s with
  | Some rest => Some (v, rest)
  | None => None
  end.

(** The JSON grammar, by recursive descent.  Every call consumes at least
    one code unit before it calls again, so a fuel above twice the length
    of the text is never exhausted. *)
Fixpoint parse_value (fuel : nat) (s : jsstring) {struct fuel}
  : option (Value * jsstring) :=
  match fuel with
  | O => None
  | S f =>
      match skip_ws s with
      | [] => None
      | c :: rest =>
          if isc "{" c then
            match skip_ws rest with
            | d :: rest' =>
                if isc "}" d then Some (VObject [], rest')
                else match parse_members f [] (d :: rest') with
                     | Some (ps, r) => Some (VObject ps, r)
                     | None => None
                     end
            | [] => None
            end
          else if isc "[" c then
            match skip_ws rest with
            | d :: rest' =>
                if isc "]" d then Some (VArray [], rest')
                else match parse_elements f (d :: rest') with
                     | Some (vs, r) => Some (VArray vs, r)
                     | None => None
                     end
            | [] => None
            end
          else if isc "034" c then
            match parse_chars rest with
            | Some (cs, r) => Some (VString cs, r)
            | None => None
            end
          else if isc "t" c then literal "true" (VBool true) (c :: rest)
          else if isc "f" c then literal "false" (VBool false) (c :: rest)
          else if isc "n" c then literal "null" VNull (c :: rest)
          else match parse_number (c :: rest) with
               | Some (n, r) => Some (VNumber n, r)
               | None => None
               end
      end
  end
with parse_elements (fuel : nat) (s : jsstring) {struct fuel}
  : option (list Value * jsstring) :=
  match fuel with
  | O => None
  | S f =>
      match parse_value f s with
      | None => None
      | Some (v, r) =>
          match skip_ws r with
          | c :: r' =>
              if isc "," c then
                match parse_elements f r' with
                | Some (vs, r'') => Some (v :: vs, r'')
                | None => None
                end
              else if isc "]" c then Some ([v], r')
              else None
          | [] => None
          end
      end
  end
with parse_members (fuel : nat) (acc : Props) (s : jsstring) {struct fuel}
  : option (Props * jsstring) :=
  match fuel with
  | O => None
  | S f =>
      match skip_ws s with
      | q :: r =>
          if isc "034" q then
            match parse_chars r with
            | None => None
            | Some (k, r1) =>
                match skip_ws r1 with
                | c :: r2 =>
                    if isc ":" c then
                      match parse_value f r2 with
                      | None => None
                      | Some (v, r3) =>
                          let acc' := define k v acc in
                          match skip_ws r3 with
                          | d :: r4 =>
                              if isc "," d then parse_members f acc' r4
                              else if isc "}" d then Some (acc', r4)
                              else None
                          | [] => None
                          end
                      end
                    else None
                | [] => None
                end
            end
          else None
      | [] => None
      end
  end.

(** [JSON.parse(text)]: the value of the text, or [None] where
    JavaScript throws a [SyntaxError]. *)
Definition parse (text : jsstring) : option Value :=
  match parse_value (2 * length text + 1) text with
  | Some (v, rest) =>
      match skip_ws rest with
      | [] => Some v
      | _ :: _ => None
      end
  | None => None
  end.

End JSON.

(** ** Property access and stringification *)

Definition nullish (v : Value) : bool :=
  match v with
  | VUndefined | VNull => true
  | _ => false
  end.

Definition number_of_nat (n : nat) : float :=
  PrimFloat.of_uint63 (Uint63.of_Z (Z.of_nat n)).

(** [v[k]] on a value that is not nullish: an own property, the [length]
    of an array or a string, the [name] and the empty [message] that an
    error instance inherits, [undefined] otherwise. *)
Definition member (v : Value) (k : jsstring) : Value :=
  match v with
  | VError name ps =>
      match lookup k ps with
      | Some x => x
      | None =>
          if JsString.eqb k (str "name") then VString name
          else if JsString.eqb k (str "message") then VString []
          else VUndefined
      end
  | _ =>
      match lookup k (own_properties v) with
      | Some x => x
      | None =>
          if JsString.eqb k (str "length") then
            match v with
            | VArray vs => VNumber (number_of_nat (length vs))
            | VString s => VNumber (number_of_nat (length s))
            | _ => VUndefined
            end
          else VUndefined
      end
  end.

(** ** The two provider SDKs, as the adapter uses them *)

(** [new OpenAI({ apiKey, dangerouslyAllowBrowser })] *)
Record OpenAIOptions : Type := {
  oa_apiKey : jsstring;
  dangerouslyAllowBrowser : bool
}.

Record ChatMessage : Type := {
  role : jsstring;
  content : jsstring
}.

(** The argument of [openai.chat.completions.create]. *)
Record ChatCompletionCreateParams : Type := {
  cc_model : jsstring;
  messages : list ChatMessage;
  functions : Value;
  cc_function_call : Value
}.

Record FunctionCall : Type := {
  fc_name : jsstring;
  arguments : jsstring
}.

Record ChatCompletionMessage : Type := {
  function_call : option FunctionCall
}.

Record Choice : Type := {
  message : ChatCompletionMessage
}.

Record ChatCompletion : Type := {
  choices : list Choice
}.

Record GenerationConfig : Type := {
  gc_temperature : float;
  topP : float;
  topK : float
}.

Record SafetySetting : Type := {
  category : jsstring;
  threshold : jsstring
}.

Record Part : Type := { text_part : jsstring }.

Record Content : Type := {
  c_role : jsstring;
  parts : list Part
}.

(** The argument of [generativeModel.generateContent]. *)
Record GenerateContentRequest : Type := {
  contents : list Content;
  generationConfig : GenerationConfig;
  safetySettings : list SafetySetting
}.

(** [result.response], of which the adapter calls [text()]. *)
Record EnhancedGenerateContentResponse : Type := {
  text : Completion jsstring
}.

Record GenerateContentResult : Type := {
  response : EnhancedGenerateContentResponse
}.

(** A request that leaves the adapter. *)
Inductive Call : Type :=
| OpenAI_create (client : OpenAIOptions) (params : ChatCompletionCreateParams)
| Gemini_generateContent (apiKey model : jsstring) (request : GenerateContentRequest).

(** What the engine and the two provider SDKs do is not part of the
    repository; the adapter is run against a [Runtime] that supplies it. *)
Record Runtime : Type := {
  (** Number::toString, used when a number lands in a template literal. *)
  Number_toString : float -> jsstring;
  (** The message of the TypeError for reading property [k] of [v]. *)
  TypeError_message : Value -> jsstring -> jsstring;
  (** The message of the TypeError for an object that has no primitive
      value. *)
  ToPrimitive_message : jsstring;
  (** [new OpenAI(client).chat.completions.create(params)], awaited: the
      completion, or the value the SDK throws. *)
  chat_completions_create :
    OpenAIOptions -> ChatCompletionCreateParams -> Completion ChatCompletion;
  (** [generateContent(request)], awaited, on the model that
      [new GoogleGenerativeAI(apiKey).getGenerativeModel({ model })] gives;
      neither constructor throws on a string key and a non-empty model
      name. *)
  generateContent :
    jsstring -> jsstring -> GenerateContentRequest -> Completion GenerateContentResult
}.

(** [Array.prototype.join] with the default separator, [to_string] being
    ToString: [undefined] and [null] elements print as the empty string,
    and the first element that cannot be converted ends the join. *)
Fixpoint join_with (to_string : Value -> Completion jsstring) (l : list Value)
  : Completion jsstring :=
  let element x := if nullish x then Normal [] else to_string x in
  match l with
  | [] => Normal []
  | [x] => element x
  | x :: rest =>
      (a <- element x ;;
       b <- join_with to_string rest ;;
       Normal (a ++ str "," ++ b))%js
  end.

(** The string [Error.prototype.toString] takes for the property [k]: the
    own property converted by [to_string], [if_undefined] when its value
    is [undefined], and the inherited string when there is no own one. *)
Fixpoint own_string (to_string : Value -> Completion jsstring) (k : jsstring)
  (inherited if_undefined : jsstring) (ps : Props) : Completion jsstring :=
  match ps with
  | [] => Normal inherited
  | (k', x) :: rest =>
      if JsString.eqb k k'
      then match x with
           | VUndefined => Normal if_undefined
           | _ => to_string x
           end
      else own_string to_string k inherited if_undefined rest
  end.

Section Engine.

Variable rt : Runtime.

(** ToString, as a template literal applies it.  No value is a function,
    so an object with an own [toString] property has no callable
    [toString], and none of [valueOf] gives a primitive: the conversion
    throws a TypeError.  Without one, a plain object prints through
    [Object.prototype.toString], an array through [join], and an error
    instance through [Error.prototype.toString]. *)
Fixpoint ToString (v : Value) : Completion jsstring :=
  match v with
  | VUndefined => Normal (str "undefined")
  | VNull => Normal (str "null")
  | VBool true => Normal (str "true")
  | VBool false => Normal (str "false")
  | VNumber n => Normal (Number_toString rt n)
  | VString s => Normal s
  | VArray vs => join_with ToString vs
  | VObject ps =>
      if has_key (str "toString") ps
      then Throw (TypeError (ToPrimitive_message rt))
      else Normal (str "[object Object]")
  | VError name ps =>
      if has_key (str "toString") ps
      then Throw (TypeError (ToPrimitive_message rt))
      else
        (n <- own_string ToString (str "name") name (str "Error") ps ;;
         m <- own_string ToString (str "message") [] [] ps ;;
         Normal (match n, m with
                 | [], _ => m
                 | _, [] => n
                 | _, _ => n ++ str ": " ++ m
                 end))%js
  end.

(** [v.k]: a TypeError when [v] is [undefined] or [null]. *)
Definition Get (v : Value) (k : jsstring) : Completion Value :=
  if nullish v then Throw (TypeError (TypeError_message rt v k))
  else Normal (member v k).

(** [v?.k] *)
Definition GetOptional (v : Value) (k : jsstring) : Completion Value :=
  if nullish v then Normal VUndefined else Get v k.

End Engine.

(** ** src/types.ts *)

Record ResearchConfig : Type := {
  apiKey : jsstring;
  provider : jsstring;
  model : jsstring;
  temperature : option float;
  query : jsstring;
  maxDepth : float;
  maxBranches : float
}.

(** What a call of the adapter does: the requests it issues and the
    settlement of the promise it returns ([Normal]: resolved, [Throw]:
    rejected). *)
Definition Outcome : Type := Traced Call Value.

Definition result (o : Outcome) : Completion Value := snd o.
Definition calls (o : Outcome) : list Call := fst o.

(** ** src/services/ai.ts *)

Definition nl : jsstring := [10%N].
Definition quoted (s : string) : jsstring :=
  JsString.dquote ++ str s ++ JsString.dquote.

Definition openai_system_content : jsstring :=
  str "You are a research assistant. Analyze the query deeply and provide a comprehensive answer with follow-up questions for deeper exploration.".

Definition obj (ps : list (string * Value)) : Value :=
  VObject (map (fun kv => (str (fst kv), snd kv)) ps).

Definition vstr (s : string) : Value := VString (str s).

Definition openai_functions : Value :=
  VArray [
    obj [("name", vstr "provide_research_response");
         ("parameters", obj [
            ("type", vstr "object");
            ("properties", obj [
               ("answer", obj [("type", vstr "string")]);
               ("followUpQuestions",
                 obj [("type", vstr "array"); ("items", obj [("type", vstr "string")])]);
               ("confidence", obj [("type", vstr "number")])]);
            ("required",
              VArray [vstr "answer"; vstr "followUpQuestions"; vstr "confidence"])])]
  ]%string.

(** [s || d] on strings: the empty string is falsy. *)
Definition string_or (s d : jsstring) : jsstring :=
  match s with
  | [] => d
  | _ :: _ => s
  end.

(** [t || d] on an optional number. *)
Definition number_or (t : option float) (d : float) : float :=
  match t with
  | Some n => if number_truthy n then n else d
  | None => d
  end.

Section Adapter.

Variable rt : Runtime.

Definition openai_client (config : ResearchConfig) : OpenAIOptions :=
  {| oa_apiKey := apiKey config; dangerouslyAllowBrowser := true |}.

Definition openai_params (config : ResearchConfig) : ChatCompletionCreateParams :=
  {| cc_model := string_or (model config) (str "gpt-4-0125-preview");
     messages := [ {| role := str "system"; content := openai_system_content |};
                   {| role := str "user"; content := query config |} ];
     functions := openai_functions;
     cc_function_call := obj [("name", vstr "provide_research_response")]%string |}.

(** [JSON.parse(text)] inside a [try] whose handler throws [new Error(msg)];
    on success the parsed value is spread after [query].  The handler does
    not look at the SyntaxError it catches, whose message (the engine's
    wording) is left empty here. *)
Definition parse_and_spread (config : ResearchConfig) (payload msg : jsstring)
  : Completion Value :=
  try_catch
    (match JSON.parse payload with
     | Some parsed =>
         Normal (VObject (spread [(str "query", VString (query config))] parsed))
     | None => Throw (ErrorInstance "SyntaxError" [])
     end)
    (fun _ => Throw (Error msg)).

(** [await openai.chat.completions.create(params)]: the request leaves,
    and the SDK answers or throws. *)
Definition create (openai : OpenAIOptions) (params : ChatCompletionCreateParams)
  : Traced Call ChatCompletion :=
  ([OpenAI_create openai params], chat_completions_create rt openai params).

Definition performOpenAIResearch (config : ResearchConfig) : Outcome :=
  let openai := openai_client config in
  (response <~ create openai (openai_params config) ;;
   pure (functionCall <-
           match choices response with
           | first :: _ => Normal (function_call (message first))
           | [] => Throw (TypeError (TypeError_message rt VUndefined (str "message")))
           end ;;
         match functionCall with
         | None => Throw (Error (str "No response received from the model"))
         | Some fc =>
             parse_and_spread config (arguments fc)
               (str "Failed to parse model response")
         end))%js.

Definition generation_config (config : ResearchConfig) : GenerationConfig :=
  {| gc_temperature := number_or (temperature config) 0.7%float;
     topP := 0.95%float;
     topK := 40%float |}.

Definition safety_settings : list SafetySetting :=
  [ {| category := str "HARM_CATEGORY_HARASSMENT";
       threshold := str "BLOCK_MEDIUM_AND_ABOVE" |};
    {| category := str "HARM_CATEGORY_HATE_SPEECH";
       threshold := str "BLOCK_MEDIUM_AND_ABOVE" |};
    {| category := str "HARM_CATEGORY_SEXUALLY_EXPLICIT";
       threshold := str "BLOCK_MEDIUM_AND_ABOVE" |};
    {| category := str "HARM_CATEGORY_DANGEROUS_CONTENT";
       threshold := str "BLOCK_MEDIUM_AND_ABOVE" |} ].

Definition systemPrompt : jsstring :=
  str "You are a research assistant. Your task is to:" ++ nl ++
  str "1. Analyze the query deeply" ++ nl ++
  str "2. Provide a comprehensive answer" ++ nl ++
  str "3. Generate relevant follow-up questions" ++ nl ++
  str "4. Format your response as JSON with this structure:" ++ nl ++
  str "{" ++ nl ++
  str "  " ++ quoted "answer" ++ str ": " ++ quoted "your detailed answer" ++ str "," ++ nl ++
  str "  " ++ quoted "followUpQuestions" ++ str ": [" ++ quoted "question 1" ++ str ", "
    ++ quoted "question 2" ++ str ", " ++ quoted "question 3" ++ str "]," ++ nl ++
  str "  " ++ quoted "confidence" ++ str ": 0.95" ++ nl ++
  str "}".

Definition gemini_prompt (config : ResearchConfig) : jsstring :=
  systemPrompt ++ nl ++ nl ++ str "Query: " ++ query config.

Definition gemini_request (config : ResearchConfig) : GenerateContentRequest :=
  {| contents := [ {| c_role := str "user";
                      parts := [ {| text_part := gemini_prompt config |} ] |} ];
     generationConfig := generation_config config;
     safetySettings := safety_settings |}.

(** [await generativeModel.generateContent(request)]: the request leaves,
    and the SDK answers or throws. *)
Definition generate (key name : jsstring) (request : GenerateContentRequest)
  : Traced Call GenerateContentResult :=
  ([Gemini_generateContent key name request], generateContent rt key name request).

Definition performGeminiResearch (config : ResearchConfig) : Outcome :=
  let key := apiKey config in
  let name := string_or (model config) (str "gemini-pro") in
  let request := gemini_request config in
  try_catch_traced
    (generated <~ generate key name request ;;
     pure (body <- text (response generated) ;;
           parse_and_spread config body
             (str "Failed to parse Gemini response. The model did not return valid JSON.")))%js
    (fun error =>
       pure (m <- Get rt error (str "message") ;;
             printed <- ToString rt m ;;
             Throw (Error (str "Gemini API Error: " ++ printed)))%js).

(** [error.error?.message || error.message || 'Unknown error occurred'] *)
Definition errorMessage (error : Value) : Completion Value :=
  (inner <- Get rt error (str "error") ;;
   nested <- GetOptional rt inner (str "message") ;;
   if truthy nested then Normal nested
   else
     top <- Get rt error (str "message") ;;
     Normal (or_else top (vstr "Unknown error occurred")))%js.

(** The [catch] block of [performResearch]. *)
Definition api_error (error : Value) : Completion Value :=
  (m <- errorMessage error ;;
   printed <- ToString rt m ;;
   Throw (Error (str "API Error: " ++ printed)))%js.

Definition performResearch (config : ResearchConfig) : Outcome :=
  try_catch_traced
    (if JsString.eqb (provider config) (str "openai")
     then performOpenAIResearch config
     else performGeminiResearch config)
    (fun error => pure (api_error error)).

End Adapter.

(** ** src/App.tsx: the state of the form and its handlers *)

Module App.

(** The five [useState] cells of [App].  [error] is a string or [null];
    [expandedResults] holds indices of [results], which the component only
    ever takes from [results.map] and from the literal [[0]]. *)
Record State : Type := {
  config : ResearchConfig;
  loading : bool;
  error : Value;
  results : list Value;
  expandedResults : list nat
}.

(** The arguments of the [useState] calls. *)
Definition initial : State :=
  {| config := {| apiKey := [];
                  provider := str "openai";
                  model := str "gpt-4-0125-preview";
                  temperature := Some 0.7%float;
                  query := [];
                  maxDepth := 3%float;
                  maxBranches := 3%float |};
     loading := false;
     error := VNull;
     results := [];
     expandedResults := [] |}.

(** What a handler does, in order: the setters it calls with their
    arguments, the requests that leave through the adapter, and what it
    logs. *)
Inductive Action : Type :=
| PreventDefault
| SetLoading (b : bool)
| SetError (e : Value)
| SetResults (rs : list Value)
| SetExpandedResults (ix : list nat)
| Request (c : Call)
| ConsoleError (label : jsstring) (e : Value).

(** A setter called with a value replaces its cell. *)
Definition reduce (st : State) (a : Action) : State :=
  match a with
  | SetLoading b =>
      {| config := config st; loading := b; error := error st;
         results := results st; expandedResults := expandedResults st |}
  | SetError e =>
      {| config := config st; loading := loading st; error := e;
         results := results st; expandedResults := expandedResults st |}
  | SetResults rs =>
      {| config := config st; loading := loading st; error := error st;
         results := rs; expandedResults := expandedResults st |}
  | SetExpandedResults ix =>
      {| config := config st; loading := loading st; error := error st;
         results := results st; expandedResults := ix |}
  | PreventDefault | Request _ | ConsoleError _ _ => st
  end.

Definition run (st : State) (actions : list Action) : State :=
  fold_left reduce actions st.

(** [handleSubmit], on the state its closure captured: the actions it
    performs, the requests of [performResearch] among them, and how the
    handler itself completes. *)
Definition handleSubmit (rt : Runtime) (st : State) : Traced Action unit :=
  (emit PreventDefault ;;;
   emit (SetLoading true) ;;;
   emit (SetError VNull) ;;;
   try_finally
     (try_catch_traced
        (r <~ map_events Request (performResearch rt (config st)) ;;
         emit (SetResults (r :: results st)) ;;;
         emit (SetExpandedResults [0]))
        (fun error =>
           emit (ConsoleError (str "Research failed:") error) ;;;
           m <~ pure (Get rt error (str "message")) ;;
           emit (SetError
                   (or_else m
                      (vstr "An unexpected error occurred. Please try again.")))))
     (emit (SetLoading false)))%js.

(** The state once [handleSubmit] has finished, when no other handler ran
    in between. *)
Definition submitted (rt : Runtime) (st : State) : State :=
  run st (fst (handleSubmit rt st)).

(** The updater that [toggleExpanded(index)] passes to
    [setExpandedResults]. *)
Definition toggleExpanded (index : nat) (prev : list nat) : list nat :=
  if existsb (Nat.eqb index) prev
  then filter (fun i => negb (Nat.eqb i index)) prev
  else prev ++ [index].

(** The [onChange] of the provider select. *)
Definition onProviderChange (value : jsstring) (c : ResearchConfig)
  : ResearchConfig :=
  {| apiKey := apiKey c;
     provider := value;
     model := if JsString.eqb value (str "openai")
              then str "gpt-4-0125-preview" else str "gemini-pro";
     temperature := temperature c;
     query := query c;
     maxDepth := maxDepth c;
     maxBranches := maxBranches c |}.

(** [disabled={loading || !config.apiKey || !config.query}] *)
Definition submitDisabled (st : State) : bool :=
  loading st
  || negb (truthy (VString (apiKey (config st))))
  || negb (truthy (VString (query (config st)))).

End App.

(** * Vocabulary of the properties *)

(** ** What the providers answer *)

(** The OpenAI SDK answers the request built from [config] with a
    completion whose first choice holds the message [first]. *)
Definition openai_replies (rt : Runtime) (config : ResearchConfig)
  (first : ChatCompletionMessage) : Prop :=
  exists completion rest,
    chat_completions_create rt (openai_client config) (openai_params config)
    = Normal completion
    /\ choices completion = {| message := first |} :: rest.

(** The Gemini SDK answers the request built from [config] with a
    response whose [text()] is [body]. *)
Definition gemini_replies (rt : Runtime) (config : ResearchConfig)
  (body : jsstring) : Prop :=
  exists generated,
    generateContent rt (apiKey config)
      (string_or (model config) (str "gemini-pro")) (gemini_request config)
    = Normal generated
    /\ text (response generated) = Normal body.

(** The provider selected by [config] delivers [payload] as the text that
    the adapter hands to [JSON.parse]. *)
Definition delivers (rt : Runtime) (config : ResearchConfig)
  (payload : jsstring) : Prop :=
  (provider config = str "openai"
   /\ exists name,
        openai_replies rt config
          {| function_call := Some {| fc_name := name; arguments := payload |} |})
  \/ (provider config <> str "openai" /\ gemini_replies rt config payload).

(** The path that [performResearch] selects, before its own [catch]. *)
Definition selected_path (rt : Runtime) (config : ResearchConfig) : Outcome :=
  if JsString.eqb (provider config) (str "openai")
  then performOpenAIResearch rt config
  else performGeminiResearch rt config.

(** The [message] of the [error] property of a thrown value, read through
    [?.]. *)
Definition nested_message (error : Value) : Value :=
  let inner := member error (str "error") in
  if nullish inner then VUndefined else member inner (str "message").

(** ** Failures of the providers *)

(** The Gemini SDK fails on the request built from [config] by throwing
    [e], either from [generateContent] or from [text()]. *)
Definition gemini_fails (rt : Runtime) (config : ResearchConfig) (e : Value)
  : Prop :=
  generateContent rt (apiKey config)
    (string_or (model config) (str "gemini-pro")) (gemini_request config)
  = Throw e
  \/ exists generated,
       generateContent rt (apiKey config)
         (string_or (model config) (str "gemini-pro")) (gemini_request config)
       = Normal generated
       /\ text (response generated) = Throw e.

(** The message that [catch] finds on [new Error(m)] through
    [error.message || fallback]. *)
Definition message_or (m : jsstring) (fallback : string) : jsstring :=
  match m with
  | [] => str fallback
  | _ :: _ => m
  end.

(** The model name a request asks for. *)
Definition requested_model (c : Call) : jsstring :=
  match c with
  | OpenAI_create _ params => cc_model params
  | Gemini_generateContent _ name _ => name
  end.

(** The request goes to OpenAI. *)
Definition to_openai (c : Call) : bool :=
  match c with
  | OpenAI_create _ _ => true
  | Gemini_generateContent _ _ _ => false
  end.

(** The action is a request to a provider. *)
Definition is_request (a : App.Action) : bool :=
  match a with
  | App.Request _ => true
  | _ => false
  end.

(** The code units a JSON value can begin with. *)
Definition starts_value (c : N) : bool :=
  JSON.isc "{" c || JSON.isc "[" c || JSON.isc "034" c || JSON.isc "t" c
  || JSON.isc "f" c || JSON.isc "n" c || JSON.isc "-" c || is_digit c.

(** ** Scripted runtimes, for concrete runs *)

(** The message V8 gives the TypeError of a property read on [undefined]
    or [null]. *)
Definition v8_TypeError_message (v : Value) (k : jsstring) : jsstring :=
  str "Cannot read properties of "
  ++ match v with VNull => str "null" | _ => str "undefined" end
  ++ str " (reading '" ++ k ++ str "')".

(** A runtime whose SDK calls settle as scripted.  Its runs put no number
    into a template literal. *)
Definition scripted (openai : Completion ChatCompletion)
  (gemini : Completion GenerateContentResult) : Runtime :=
  {| Number_toString := fun _ => str "NaN";
     TypeError_message := v8_TypeError_message;
     ToPrimitive_message := str "Cannot convert object to primitive value";
     chat_completions_create := fun _ _ => openai;
     generateContent := fun _ _ _ => gemini |}.

Definition completion_with (fc : option FunctionCall) : ChatCompletion :=
  {| choices := [ {| message := {| function_call := fc |} |} ] |}.

Definition function_call_with (args : jsstring) : FunctionCall :=
  {| fc_name := str "provide_research_response"; arguments := args |}.

Definition openai_answers (args : jsstring) : Runtime :=
  scripted (Normal (completion_with (Some (function_call_with args))))
           (Throw VUndefined).

Definition gemini_answers (body : jsstring) : Runtime :=
  scripted (Throw VUndefined)
           (Normal {| response := {| text := Normal body |} |}).

Definition config_for (p : string) (t : option float) (question : string)
  : ResearchConfig :=
  {| apiKey := str "sk-test"; provider := str p; model := [];
     temperature := t; query := str question;
     maxDepth := 3%float; maxBranches := 3%float |}.

(** The [catch] of [performResearch], applied to the outcome of a path. *)
Definition api_error_catch (rt : Runtime) (o : Outcome) : Outcome :=
  (calls o, try_catch (result o) (api_error rt)).


(** ** The fuel of the parser *)

(** With fuel [f], a successful parse leaves less text than it was given. *)
Definition consumes (f : nat) : Prop :=
  (forall s v r, JSON.parse_value f s = Some (v, r) -> length r < length s)
  /\ (forall s vs r, JSON.parse_elements f s = Some (vs, r) -> length r < length s)
  /\ (forall acc s ps r,
        JSON.parse_members f acc s = Some (ps, r) -> length r < length s).

(** From the bound on, the fuel changes nothing: twice the length of the
    text and one for a value, one more for the elements of an array and
    the members of an object. *)
Definition fuel_irrelevant (f : nat) : Prop :=
  (forall f' s, 2 * length s + 1 <= f -> 2 * length s + 1 <= f' ->
                JSON.parse_value f s = JSON.parse_value f' s)
  /\ (forall f' s, 2 * length s + 2 <= f -> 2 * length s + 2 <= f' ->
                   JSON.parse_elements f s = JSON.parse_elements f' s)
  /\ (forall f' acc s, 2 * length s + 2 <= f -> 2 * length s + 2 <= f' ->
                       JSON.parse_members f acc s = JSON.parse_members f' acc s).

(** ** Payloads and thrown values of the concrete runs *)

(** [{ error: { message: "" }, message: "boom" }] *)
Definition thrown_with_empty_nested_message : Value :=
  obj [("error", obj [("message", vstr "")]); ("message", vstr "boom")]%string.

(** [{"query":"spoofed","answer":"x","followUpQuestions":[],"confidence":1}] *)
Definition spoofed_payload : jsstring :=
  str "{" ++ quoted "query" ++ str ":" ++ quoted "spoofed" ++ str ","
  ++ quoted "answer" ++ str ":" ++ quoted "x" ++ str ","
  ++ quoted "followUpQuestions" ++ str ":[],"
  ++ quoted "confidence" ++ str ":1}".

(** [```json {} ```]: a JSON object inside a markdown fence. *)
Definition fenced_payload : jsstring :=
  str "```json" ++ nl ++ str "{" ++ quoted "answer" ++ str ":" ++ quoted "x"
  ++ str "}" ++ nl ++ str "```".

(** [{"answer":"x","followUpQuestions":["y"],"confidence":0.9}] *)
Definition exact_payload : jsstring :=
  str "{" ++ quoted "answer" ++ str ":" ++ quoted "x" ++ str ","
  ++ quoted "followUpQuestions" ++ str ":[" ++ quoted "y" ++ str "],"
  ++ quoted "confidence" ++ str ":0.9}".


(** * Properties *)

(** ** Equality of strings *)

Lemma jsstring_eqb_eq (a b : jsstring) : JsString.eqb a b = true <-> a = b.
Proof.
  unfold JsString.eqb. destruct (list_eq_dec N.eq_dec a b); split; congruence.
Qed.

Lemma jsstring_eqb_neq (a b : jsstring) : JsString.eqb a b = false <-> a <> b.
Proof.
  unfold JsString.eqb. destruct (list_eq_dec N.eq_dec a b); split; congruence.
Qed.

Lemma jsstring_eqb_refl (a : jsstring) : JsString.eqb a a = true.
Proof. apply jsstring_eqb_eq. reflexivity. Qed.

(** ** Property lists *)

Section PropertyLists.

Implicit Types (k : jsstring) (v : Value) (ps : Props).






Lemma lookup_replace_other k k' v ps :
  k <> k' -> lookup k (replace k' v ps) = lookup k ps.
Proof.
  intros Hne. induction ps as [|[k1 v1] ps IH]; simpl.
  - reflexivity.
  - destruct (JsString.eqb k' k1) eqn:E; simpl.
    + apply jsstring_eqb_eq in E. subst k1.
      apply jsstring_eqb_neq in Hne. rewrite Hne. reflexivity.
    + rewrite IH. reflexivity.
Qed.

Lemma lookup_insert_index_other k i k' v ps :
  k <> k' -> lookup k (insert_index i k' v ps) = lookup k ps.
Proof.
  intros Hne. pose proof Hne as Hb. apply jsstring_eqb_neq in Hb.
  induction ps as [|[k1 v1] ps IH]; simpl.
  - rewrite Hb. reflexivity.
  - destruct (array_index k1) as [j|]; [destruct (j <? i)%N|]; simpl;
      rewrite ?Hb, ?IH; reflexivity.
Qed.

Lemma lookup_app_other k k' v ps :
  k <> k' -> lookup k (ps ++ [(k', v)]) = lookup k ps.
Proof.
  intros Hne. apply jsstring_eqb_neq in Hne.
  induction ps as [|[k1 v1] ps IH]; simpl.
  - rewrite Hne. reflexivity.
  - rewrite IH. reflexivity.
Qed.

(** CreateDataProperty leaves the other properties as they are. *)
Lemma lookup_define_other k k' v ps :
  k <> k' -> lookup k (define k' v ps) = lookup k ps.
Proof.
  intros Hne. unfold define. destruct (has_key k' ps).
  - apply lookup_replace_other, Hne.
  - destruct (array_index k').
    + apply lookup_insert_index_other, Hne.
    + apply lookup_app_other, Hne.
Qed.

Lemma lookup_none_cons k k' v ps :
  lookup k ((k', v) :: ps) = None -> k <> k' /\ lookup k ps = None.
Proof.
  simpl. destruct (JsString.eqb k k') eqn:E; [discriminate|].
  apply jsstring_eqb_neq in E. auto.
Qed.

Lemma fold_define_absent k (src tgt : Props) :
  lookup k src = None ->
  lookup k (fold_left (fun acc kv => define (fst kv) (snd kv) acc) src tgt)
  = lookup k tgt.
Proof.
  revert tgt. induction src as [|[k1 v1] src IH]; intros tgt Hnone; simpl.
  - reflexivity.
  - apply lookup_none_cons in Hnone as [Hne Hrest].
    rewrite IH by exact Hrest. apply lookup_define_other, Hne.
Qed.


(** A property the source of a spread does not have keeps the value the
    target gave it. *)
Lemma lookup_spread_absent k tgt (source : Value) :
  lookup k (own_properties source) = None ->
  lookup k (spread tgt source) = lookup k tgt.
Proof. apply fold_define_absent. Qed.



Lemma member_object_present k v ps :
  lookup k ps = Some v -> member (VObject ps) k = v.
Proof. unfold member. simpl. intros ->. reflexivity. Qed.

End PropertyLists.

(** ** The parser consumes its input and never runs out of fuel *)

Lemma skip_ws_le s : length (JSON.skip_ws s) <= length s.
Proof.
  induction s as [|c s IH]; simpl; [lia|].
  destruct (JSON.is_ws c); simpl; lia.
Qed.

Lemma take_digits_le s : length (snd (JSON.take_digits s)) <= length s.
Proof.
  induction s as [|c s IH]; simpl; [lia|].
  destruct (is_digit c); simpl; [|lia].
  destruct (JSON.take_digits s) as [ds r]. simpl in *. lia.
Qed.

Lemma expect_length lit : forall s r,
  JSON.expect lit s = Some r -> length r + length lit = length s.
Proof.
  induction lit as [|l lit IH]; intros s r; simpl.
  - intros H. injection H as ->. lia.
  - destruct s as [|c s]; [discriminate|].
    destruct (l =? c)%N; [|discriminate].
    intros H. apply IH in H. simpl. lia.
Qed.

Lemma parse_chars_lt n : forall s cs r,
  length s <= n ->
  JSON.parse_chars s = Some (cs, r) -> length r < length s.
Proof.
  induction n as [|n IH]; intros s cs r Hn.
  - destruct s; [discriminate | simpl in Hn; lia].
  - destruct s as [|c rest]; [discriminate|]. simpl in Hn |- *.
    destruct (JSON.isc _ c).
    { intros H. injection H as _ <-. lia. }
    destruct (JSON.isc _ c).
    + destruct rest as [|e rest1]; [discriminate|].
      destruct (JSON.isc _ e).
      * destruct rest1 as [|h1 [|h2 [|h3 [|h4 rest2]]]]; try discriminate.
        destruct (JSON.hex4 h1 h2 h3 h4); [|discriminate].
        destruct (JSON.parse_chars rest2) as [[cs' r']|] eqn:E; [|discriminate].
        intros H. injection H as _ <-.
        apply IH in E; simpl in *; lia.
      * destruct (JSON.escape e); [|discriminate].
        destruct (JSON.parse_chars rest1) as [[cs' r']|] eqn:E; [|discriminate].
        intros H. injection H as _ <-.
        apply IH in E; simpl in *; lia.
    + destruct (c <? 32)%N; [discriminate|].
      destruct (JSON.parse_chars rest) as [[cs' r']|] eqn:E; [|discriminate].
      intros H. injection H as _ <-.
      apply IH in E; simpl in *; lia.
Qed.

Lemma parse_int_lt s ds r :
  JSON.parse_int s = Some (ds, r) -> length r < length s.
Proof.
  unfold JSON.parse_int. destruct s as [|c rest]; [discriminate|].
  destruct (JSON.isc _ c).
  - intros H. injection H as _ <-. simpl. lia.
  - destruct (is_digit c) eqn:Hd; [|discriminate].
    intros H. injection H as H. simpl in H. rewrite Hd in H.
    pose proof (take_digits_le rest) as Hle.
    destruct (JSON.take_digits rest) as [ds' r']. injection H as _ <-.
    simpl in *. lia.
Qed.

Lemma parse_fraction_le s ds r :
  JSON.parse_fraction s = Some (ds, r) -> length r <= length s.
Proof.
  unfold JSON.parse_fraction. destruct s as [|c rest].
  - intros H. injection H as _ <-. lia.
  - destruct (JSON.isc _ c).
    + pose proof (take_digits_le rest) as Hle.
      destruct (JSON.take_digits rest) as [[|d ds'] r']; [discriminate|].
      intros H. injection H as _ <-. simpl in *. lia.
    + intros H. injection H as _ <-. lia.
Qed.

Lemma parse_exponent_le s e r :
  JSON.parse_exponent s = Some (e, r) -> length r <= length s.
Proof.
  unfold JSON.parse_exponent. destruct s as [|c rest].
  - intros H. injection H as _ <-. lia.
  - destruct (JSON.isc _ c || JSON.isc _ c).
    + destruct rest as [|d rest'].
      * simpl. discriminate.
      * destruct (JSON.isc _ d); [|destruct (JSON.isc _ d)].
        -- pose proof (take_digits_le rest') as Hle.
           destruct (JSON.take_digits rest') as [[|x ds'] r']; [discriminate|].
           intros H. injection H as _ <-. simpl in *. lia.
        -- pose proof (take_digits_le rest') as Hle.
           destruct (JSON.take_digits rest') as [[|x ds'] r']; [discriminate|].
           intros H. injection H as _ <-. simpl in *. lia.
        -- pose proof (take_digits_le (d :: rest')) as Hle.
           destruct (JSON.take_digits (d :: rest')) as [[|x ds'] r']; [discriminate|].
           intros H. injection H as _ <-. simpl in *. lia.
    + intros H. injection H as _ <-. lia.
Qed.

Lemma parse_number_lt s x r :
  JSON.parse_number s = Some (x, r) -> length r < length s.
Proof.
  unfold JSON.parse_number.
  set (p := match s with
            | c :: rest => if JSON.isc "-" c then (true, rest) else (false, s)
            | [] => (false, s)
            end).
  assert (Hp : length (snd p) <= length s).
  { subst p. destruct s as [|c rest]; simpl; [lia|].
    destruct (JSON.isc _ c); simpl; lia. }
  destruct p as [neg s1]. simpl in Hp.
  destruct (JSON.parse_int s1) as [[int s2]|] eqn:Hi; [|discriminate].
  destruct (JSON.parse_fraction s2) as [[frac s3]|] eqn:Hf; [|discriminate].
  destruct (JSON.parse_exponent s3) as [[e s4]|] eqn:He; [|discriminate].
  intros H. injection H as _ <-.
  apply parse_int_lt in Hi. apply parse_fraction_le in Hf.
  apply parse_exponent_le in He. lia.
Qed.

Lemma literal_lt lit v s v' r :
  lit <> EmptyString ->
  JSON.literal lit v s = Some (v', r) -> length r < length s.
Proof.
  unfold JSON.literal. intros Hne.
  destruct (JSON.expect (str lit) s) as [rest|] eqn:E; [|discriminate].
  intros H. injection H as _ <-. apply expect_length in E.
  destruct lit; [congruence|]. simpl in E. lia.
Qed.

Lemma parse_consumes f : consumes f.
Proof.
  induction f as [|f (IHv & IHe & IHm)]; [repeat split; intros; discriminate|].
  repeat split.
  - intros s v r. simpl.
    pose proof (skip_ws_le s) as Hs.
    destruct (JSON.skip_ws s) as [|c rest]; [discriminate|].
    destruct (JSON.isc "{" c).
    { pose proof (skip_ws_le rest) as Hr.
      destruct (JSON.skip_ws rest) as [|d rest']; [discriminate|].
      destruct (JSON.isc "}" d).
      - intros H. injection H as _ <-. simpl in *. lia.
      - destruct (JSON.parse_members f [] (d :: rest')) as [[ps r']|] eqn:E;
          [|discriminate].
        intros H. injection H as _ <-. apply IHm in E. simpl in *. lia. }
    destruct (JSON.isc "[" c).
    { pose proof (skip_ws_le rest) as Hr.
      destruct (JSON.skip_ws rest) as [|d rest']; [discriminate|].
      destruct (JSON.isc "]" d).
      - intros H. injection H as _ <-. simpl in *. lia.
      - destruct (JSON.parse_elements f (d :: rest')) as [[vs r']|] eqn:E;
          [|discriminate].
        intros H. injection H as _ <-. apply IHe in E. simpl in *. lia. }
    destruct (JSON.isc "034" c).
    { destruct (JSON.parse_chars rest) as [[cs r']|] eqn:E; [|discriminate].
      intros H. injection H as _ <-.
      apply (@parse_chars_lt (length rest)) in E; simpl in *; lia. }
    destruct (JSON.isc "t" c).
    { intros H. apply literal_lt in H; [simpl in *; lia | discriminate]. }
    destruct (JSON.isc "f" c).
    { intros H. apply literal_lt in H; [simpl in *; lia | discriminate]. }
    destruct (JSON.isc "n" c).
    { intros H. apply literal_lt in H; [simpl in *; lia | discriminate]. }
    destruct (JSON.parse_number (c :: rest)) as [[n r']|] eqn:E; [|discriminate].
    intros H. injection H as _ <-. apply parse_number_lt in E. simpl in *. lia.
  - intros s vs r. simpl.
    destruct (JSON.parse_value f s) as [[v r0]|] eqn:Ev; [|discriminate].
    apply IHv in Ev. pose proof (skip_ws_le r0) as Hr.
    destruct (JSON.skip_ws r0) as [|c r']; [discriminate|].
    destruct (JSON.isc "," c).
    + destruct (JSON.parse_elements f r') as [[vs' r'']|] eqn:Ee; [|discriminate].
      intros H. injection H as _ <-. apply IHe in Ee. simpl in *. lia.
    + destruct (JSON.isc "]" c); [|discriminate].
      intros H. injection H as _ <-. simpl in *. lia.
  - intros acc s ps r. simpl.
    pose proof (skip_ws_le s) as Hs.
    destruct (JSON.skip_ws s) as [|q0 r0]; [discriminate|].
    destruct (JSON.isc "034" q0); [|discriminate].
    destruct (JSON.parse_chars r0) as [[k r1]|] eqn:Ec; [|discriminate].
    apply (@parse_chars_lt (length r0)) in Ec; [|lia].
    pose proof (skip_ws_le r1) as Hr1.
    destruct (JSON.skip_ws r1) as [|c r2]; [discriminate|].
    destruct (JSON.isc ":" c); [|discriminate].
    destruct (JSON.parse_value f r2) as [[v r3]|] eqn:Ev; [|discriminate].
    apply IHv in Ev. pose proof (skip_ws_le r3) as Hr3.
    destruct (JSON.skip_ws r3) as [|d r4]; [discriminate|].
    destruct (JSON.isc "," d).
    + intros H. apply IHm in H. simpl in *. lia.
    + destruct (JSON.isc "}" d); [|discriminate].
      intros H. injection H as _ <-. simpl in *. lia.
Qed.

Lemma parse_fuel_irrelevant f : fuel_irrelevant f.
Proof.
  induction f as [|f (IHv & IHe & IHm)]; [repeat split; intros; lia|].
  repeat split.
  - intros f' s Hf Hf'. destruct f' as [|f']; [lia|]. simpl.
    pose proof (skip_ws_le s) as Hs.
    destruct (JSON.skip_ws s) as [|c rest]; [reflexivity|].
    pose proof (skip_ws_le rest) as Hr.
    destruct (JSON.skip_ws rest) as [|d rest'].
    + reflexivity.
    + rewrite (IHm f' [] (d :: rest')) by (simpl in *; lia).
      rewrite (IHe f' (d :: rest')) by (simpl in *; lia).
      reflexivity.
  - intros f' s Hf Hf'. destruct f' as [|f']; [lia|]. simpl.
    rewrite (IHv f' s) by lia.
    destruct (JSON.parse_value f' s) as [[v r0]|] eqn:Ev; [|reflexivity].
    apply parse_consumes in Ev. pose proof (skip_ws_le r0) as Hr.
    destruct (JSON.skip_ws r0) as [|c r']; [reflexivity|].
    rewrite (IHe f' r') by (simpl in *; lia). reflexivity.
  - intros f' acc s Hf Hf'. destruct f' as [|f']; [lia|]. simpl.
    pose proof (skip_ws_le s) as Hs.
    destruct (JSON.skip_ws s) as [|q0 r0]; [reflexivity|].
    destruct (JSON.isc "034" q0); [|reflexivity].
    destruct (JSON.parse_chars r0) as [[k r1]|] eqn:Ec; [|reflexivity].
    apply (@parse_chars_lt (length r0)) in Ec; [|lia].
    pose proof (skip_ws_le r1) as Hr1.
    destruct (JSON.skip_ws r1) as [|c r2]; [reflexivity|].
    destruct (JSON.isc ":" c); [|reflexivity].
    rewrite (IHv f' r2) by (simpl in *; lia).
    destruct (JSON.parse_value f' r2) as [[v r3]|] eqn:Ev; [|reflexivity].
    apply parse_consumes in Ev. pose proof (skip_ws_le r3) as Hr3.
    destruct (JSON.skip_ws r3) as [|d r4]; [reflexivity|].
    rewrite (IHm f' (define k v acc) r4) by (simpl in *; lia). reflexivity.
Qed.

(** [JSON.parse] does not depend on its fuel: any fuel above the bound
    gives the result of the bound. *)
Theorem parse_value_fuel text n :
  2 * length text + 1 <= n ->
  JSON.parse_value n text = JSON.parse_value (2 * length text + 1) text.
Proof.
  intros Hn. apply parse_fuel_irrelevant; lia.
Qed.

(** ** The paths of the adapter *)

Section Paths.

Variable rt : Runtime.
Variable config : ResearchConfig.

Lemma selected_path_openai :
  provider config = str "openai" ->
  selected_path rt config = performOpenAIResearch rt config.
Proof.
  intros H. unfold selected_path. rewrite H, jsstring_eqb_refl. reflexivity.
Qed.

Lemma selected_path_gemini :
  provider config <> str "openai" ->
  selected_path rt config = performGeminiResearch rt config.
Proof.
  intros H. unfold selected_path. apply jsstring_eqb_neq in H. rewrite H.
  reflexivity.
Qed.

Lemma parse_and_spread_valid payload msg parsed :
  JSON.parse payload = Some parsed ->
  parse_and_spread config payload msg
  = Normal (VObject (spread [(str "query", VString (query config))] parsed)).
Proof. unfold parse_and_spread. intros ->. reflexivity. Qed.

Lemma parse_and_spread_invalid payload msg :
  JSON.parse payload = None ->
  parse_and_spread config payload msg = Throw (Error msg).
Proof. unfold parse_and_spread. intros ->. reflexivity. Qed.

(** Each path sends one request, whatever the SDK answers. *)
Lemma openai_path_calls :
  calls (performOpenAIResearch rt config)
  = [OpenAI_create (openai_client config) (openai_params config)].
Proof.
  unfold performOpenAIResearch, calls, and_then, create. cbn [snd fst].
  destruct (chat_completions_create rt (openai_client config) (openai_params config));
    cbn [fst pure]; [apply app_nil_r | reflexivity].
Qed.

Lemma gemini_path_calls :
  calls (performGeminiResearch rt config)
  = [Gemini_generateContent (apiKey config)
       (string_or (model config) (str "gemini-pro")) (gemini_request config)].
Proof.
  unfold performGeminiResearch, calls, try_catch_traced, and_then, generate.
  cbn [snd fst].
  destruct (generateContent rt (apiKey config)
              (string_or (model config) (str "gemini-pro")) (gemini_request config))
    as [generated | e]; cbn [fst snd pure].
  - destruct (bind (text (response generated)) _); cbn [fst snd]; reflexivity.
  - reflexivity.
Qed.

(** What the OpenAI path does with the first choice of the completion. *)
Lemma openai_path_first first :
  openai_replies rt config first ->
  result (performOpenAIResearch rt config)
  = match function_call first with
    | None => Throw (Error (str "No response received from the model"))
    | Some fc =>
        parse_and_spread config (arguments fc)
          (str "Failed to parse model response")
    end.
Proof.
  intros (completion & rest & Hcall & Hchoices).
  unfold performOpenAIResearch, result, and_then, create. cbn [snd fst].
  rewrite Hcall. cbn [pure snd bind]. rewrite Hchoices. reflexivity.
Qed.

(** The inner [catch] of the Gemini path turns a thrown [Error] into one
    with the prefixed message. *)
Lemma gemini_path_body body :
  gemini_replies rt config body ->
  result (performGeminiResearch rt config)
  = match JSON.parse body with
    | Some parsed =>
        Normal (VObject (spread [(str "query", VString (query config))] parsed))
    | None =>
        Throw (Error (str "Gemini API Error: Failed to parse Gemini response. The model did not return valid JSON."))
    end.
Proof.
  intros (generated & Hcall & Htext).
  unfold performGeminiResearch, result, try_catch_traced, and_then, generate.
  cbn [snd fst]. rewrite Hcall. cbn [pure snd fst bind]. rewrite Htext.
  cbn [bind]. unfold parse_and_spread. destruct (JSON.parse body); reflexivity.
Qed.

(** The outer [catch] on a thrown [Error] with a non-empty message. *)
Lemma api_error_of_Error (o : Outcome) (msg : jsstring) :
  msg <> [] ->
  result o = Throw (Error msg) ->
  try_catch (result o) (api_error rt)
  = Throw (Error (str "API Error: " ++ msg)).
Proof.
  intros Hne ->. destruct msg as [|c msg]; [congruence|]. reflexivity.
Qed.

(** A handler that performs nothing adds nothing to the events. *)
Lemma try_catch_traced_pure (E A : Type) (body : Traced E A)
  (handler : Value -> Completion A) :
  try_catch_traced body (fun e => pure (handler e))
  = (fst body, try_catch (snd body) handler).
Proof.
  unfold try_catch_traced, try_catch, pure.
  destruct (snd body); cbn [fst snd]; [reflexivity|].
  rewrite app_nil_r. reflexivity.
Qed.

Lemma performResearch_unfold :
  performResearch rt config
  = (calls (selected_path rt config),
     try_catch (result (selected_path rt config)) (api_error rt)).
Proof. apply try_catch_traced_pure. Qed.

(** A payload that parses is spread after [query] and resolved. *)
Lemma resolves_with_spread payload parsed :
  delivers rt config payload ->
  JSON.parse payload = Some parsed ->
  result (performResearch rt config)
  = Normal (VObject (spread [(str "query", VString (query config))] parsed)).
Proof.
  intros Hd Hparse. rewrite performResearch_unfold. unfold result at 1. cbn [snd].
  destruct Hd as [[Hp (name & Hr)] | [Hp Hr]].
  - rewrite (selected_path_openai Hp), (openai_path_first Hr). cbn [function_call arguments].
    rewrite (parse_and_spread_valid _ _ Hparse). reflexivity.
  - rewrite (selected_path_gemini Hp), (gemini_path_body Hr), Hparse. reflexivity.
Qed.

End Paths.

(** ** The echo of the query *)

(** X1: where the parsed value has no [query] property of its own, the
    result that [performResearch] resolves to carries the query of the
    request, on both paths. *)
Lemma query_echo_without_query_key rt config payload parsed :
  delivers rt config payload ->
  JSON.parse payload = Some parsed ->
  has_key (str "query") (own_properties parsed) = false ->
  exists r,
    result (performResearch rt config) = Normal r
    /\ member r (str "query") = VString (query config).
Proof.
  intros Hd Hparse Hno. eexists. split.
  - apply (resolves_with_spread Hd Hparse).
  - apply member_object_present. rewrite lookup_spread_absent.
    + reflexivity.
    + unfold has_key in Hno. destruct (lookup _ _); [discriminate | reflexivity].
Qed.

(** C1, at the input on which the code departs from it: when the parsed
    object has a [query] property of its own, the result that
    [performResearch] resolves to carries that value and not the query of
    the request, because the spread comes after [query: config.query] in
    the object literal. *)
Theorem C1_parsed_query_overrides_config_query rt config :
  delivers rt config spoofed_payload ->
  exists r,
    result (performResearch rt config) = Normal r
    /\ member r (str "query") = VString (str "spoofed").
Proof.
  intros Hd.
  assert (Hparse : exists parsed,
             JSON.parse spoofed_payload = Some parsed
             /\ forall q0, member (VObject (spread [(str "query", VString q0)] parsed))
                                  (str "query") = VString (str "spoofed")).
  { eexists. split; [vm_compute; reflexivity|]. intros q0. vm_compute. reflexivity. }
  destruct Hparse as (parsed & Hparse & Hq).
  eexists. split.
  - apply (resolves_with_spread Hd Hparse).
  - apply Hq.
Qed.

Lemma C1_parsed_query_overrides_config_query_witness :
  (exists r,
     result (performResearch (openai_answers spoofed_payload)
               (config_for "openai" None "What is Rocq?")) = Normal r
     /\ member r (str "query") = VString (str "spoofed"))
  /\ (exists r,
        result (performResearch (gemini_answers spoofed_payload)
                  (config_for "gemini" None "What is Rocq?")) = Normal r
        /\ member r (str "query") = VString (str "spoofed")).
Proof.
  split.
  - apply C1_parsed_query_overrides_config_query.
    left. split; [reflexivity|].
    exists (str "provide_research_response").
    eexists. eexists. split; reflexivity.
  - apply C1_parsed_query_overrides_config_query.
    right. split; [discriminate|].
    eexists. split; reflexivity.
Defined.

(** ** The temperature sent to Gemini *)

Lemma number_or_truthy t d :
  number_truthy t = true -> number_or (Some t) d = t.
Proof. unfold number_or. intros ->. reflexivity. Qed.

(** A temperature that is neither zero nor NaN is forwarded as it is. *)
Lemma temperature_forwarded_when_truthy config t :
  temperature config = Some t ->
  number_truthy t = true ->
  gc_temperature (generation_config config) = t.
Proof.
  intros Ht Htruthy. unfold generation_config. cbn [gc_temperature].
  rewrite Ht. apply number_or_truthy, Htruthy.
Qed.

(** An absent temperature becomes 0.7. *)
Lemma temperature_default_when_absent config :
  temperature config = None ->
  gc_temperature (generation_config config) = 0.7%float.
Proof.
  intros Ht. unfold generation_config. cbn [gc_temperature]. rewrite Ht.
  reflexivity.
Qed.

(** C2, at the input on which the code departs from it: a temperature of
    0 is not forwarded to Gemini; [config.temperature || 0.7] takes 0 for
    absent and the request carries 0.7. *)
Theorem C2_temperature_zero_sent_as_default rt config :
  provider config <> str "openai" ->
  temperature config = Some 0%float ->
  exists key name request,
    calls (performResearch rt config) = [Gemini_generateContent key name request]
    /\ gc_temperature (generationConfig request) = 0.7%float
    /\ gc_temperature (generationConfig request) <> 0%float.
Proof.
  intros Hp Ht. rewrite performResearch_unfold, (@selected_path_gemini rt config Hp).
  do 3 eexists. split; [apply gemini_path_calls|].
  cbn [generationConfig gemini_request generation_config gc_temperature].
  rewrite Ht. split; [reflexivity|].
  intros H. apply (f_equal (fun x => PrimFloat.eqb x 0%float)) in H.
  vm_compute in H. discriminate.
Qed.

Lemma C2_temperature_zero_sent_as_default_witness :
  exists key name request,
    calls (performResearch (gemini_answers [])
             (config_for "gemini" (Some 0%float) "What is Rocq?"))
    = [Gemini_generateContent key name request]
    /\ gc_temperature (generationConfig request) = 0.7%float
    /\ gc_temperature (generationConfig request) <> 0%float.
Proof.
  apply C2_temperature_zero_sent_as_default; [discriminate | reflexivity].
Defined.

(** ** Rejections *)

(** C3: on the Gemini path, when the text of the response is not valid
    JSON, [performResearch] rejects with an [Error] whose message is
    [API Error: Gemini API Error: Failed to parse Gemini response. The model
    did not return valid JSON.]: the message of the inner [catch], wrapped
    by the [catch] of [performResearch]; it mentions that the model did not
    return valid JSON. *)
Theorem C3_gemini_invalid_json_rejects_double_wrapped rt config body :
  provider config <> str "openai" ->
  gemini_replies rt config body ->
  JSON.parse body = None ->
  result (performResearch rt config)
  = Throw (Error (str "API Error: " ++ str "Gemini API Error: "
                  ++ str "Failed to parse Gemini response. The model did not return valid JSON."))
  /\ forall m,
       result (performResearch rt config) = Throw (Error m) ->
       JsString.includes m (str "The model did not return valid JSON").
Proof.
  intros Hp Hr Hparse.
  assert (Hres : result (performResearch rt config)
                 = Throw (Error (str "API Error: " ++ str "Gemini API Error: "
                    ++ str "Failed to parse Gemini response. The model did not return valid JSON."))).
  { rewrite performResearch_unfold. unfold result at 1. cbn [snd].
    apply api_error_of_Error; [discriminate|].
    rewrite (@selected_path_gemini rt config Hp), (gemini_path_body Hr), Hparse.
    reflexivity. }
  split; [exact Hres|].
  intros m Hm. rewrite Hres in Hm. injection Hm as <-.
  exists (str "API Error: Gemini API Error: Failed to parse Gemini response. "),
         (str ".").
  reflexivity.
Qed.

Lemma C3_gemini_invalid_json_rejects_double_wrapped_witness :
  result (performResearch (gemini_answers fenced_payload)
            (config_for "gemini" (Some 0.7%float) "What is Rocq?"))
  = Throw (Error (str "API Error: Gemini API Error: Failed to parse Gemini response. The model did not return valid JSON.")).
Proof.
  apply (@C3_gemini_invalid_json_rejects_double_wrapped
           (gemini_answers fenced_payload)
           (config_for "gemini" (Some 0.7%float) "What is Rocq?")
           fenced_payload).
  - discriminate.
  - eexists. split; reflexivity.
  - vm_compute. reflexivity.
Defined.

(** C4: on the OpenAI path, when the message of the first choice has no
    [function_call], [performResearch] rejects with an [Error] whose
    message is [API Error: No response received from the model]. *)
Theorem C4_openai_missing_function_call_rejects rt config :
  provider config = str "openai" ->
  openai_replies rt config {| function_call := None |} ->
  result (performResearch rt config)
  = Throw (Error (str "API Error: " ++ str "No response received from the model")).
Proof.
  intros Hp Hr.
  rewrite performResearch_unfold. unfold result at 1. cbn [snd].
  apply api_error_of_Error; [discriminate|].
  rewrite (@selected_path_openai rt config Hp), (openai_path_first Hr).
  reflexivity.
Qed.

Lemma C4_openai_missing_function_call_rejects_witness :
  result (performResearch (scripted (Normal (completion_with None)) (Throw VUndefined))
            (config_for "openai" None "What is Rocq?"))
  = Throw (Error (str "API Error: No response received from the model")).
Proof.
  apply (@C4_openai_missing_function_call_rejects
           (scripted (Normal (completion_with None)) (Throw VUndefined))
           (config_for "openai" None "What is Rocq?")).
  - reflexivity.
  - eexists. eexists. split; reflexivity.
Defined.

(** C5: on the OpenAI path, when a function call is present and its
    [arguments] are not valid JSON, [performResearch] rejects with an
    [Error] whose message is [API Error: Failed to parse model response];
    it does not resolve. *)
Theorem C5_openai_invalid_arguments_rejects rt config fc :
  provider config = str "openai" ->
  openai_replies rt config {| function_call := Some fc |} ->
  JSON.parse (arguments fc) = None ->
  result (performResearch rt config)
  = Throw (Error (str "API Error: " ++ str "Failed to parse model response"))
  /\ forall r, result (performResearch rt config) <> Normal r.
Proof.
  intros Hp Hr Hparse.
  assert (Hres : result (performResearch rt config)
                 = Throw (Error (str "API Error: " ++ str "Failed to parse model response"))).
  { rewrite performResearch_unfold. unfold result at 1. cbn [snd].
    apply api_error_of_Error; [discriminate|].
    rewrite (@selected_path_openai rt config Hp), (openai_path_first Hr).
    cbn [function_call]. apply parse_and_spread_invalid, Hparse. }
  split; [exact Hres|].
  intros r Hr'. rewrite Hres in Hr'. discriminate.
Qed.

Lemma C5_openai_invalid_arguments_rejects_witness :
  result (performResearch (openai_answers (str "{answer: x}"))
            (config_for "openai" None "What is Rocq?"))
  = Throw (Error (str "API Error: Failed to parse model response")).
Proof.
  apply (@C5_openai_invalid_arguments_rejects
           (openai_answers (str "{answer: x}"))
           (config_for "openai" None "What is Rocq?")
           (function_call_with (str "{answer: x}"))).
  - reflexivity.
  - eexists. eexists. split; reflexivity.
  - vm_compute. reflexivity.
Defined.

(** ** A well-formed Gemini answer *)

(** C6: on the Gemini path, when the text of the response is exactly
    [{"answer":"x","followUpQuestions":["y"],"confidence":0.9}],
    [performResearch] resolves to the object with [query] the query of the
    request, [answer] "x", [followUpQuestions] ["y"] and [confidence] 0.9. *)
Theorem C6_gemini_exact_payload_resolves rt config :
  provider config <> str "openai" ->
  gemini_replies rt config exact_payload ->
  result (performResearch rt config)
  = Normal (VObject [ (str "query", VString (query config));
                      (str "answer", VString (str "x"));
                      (str "followUpQuestions", VArray [VString (str "y")]);
                      (str "confidence", VNumber 0.9%float) ]).
Proof.
  intros Hp Hr.
  assert (Hparse : JSON.parse exact_payload
                   = Some (VObject [ (str "answer", VString (str "x"));
                                     (str "followUpQuestions", VArray [VString (str "y")]);
                                     (str "confidence", VNumber 0.9%float) ])).
  { vm_compute. reflexivity. }
  rewrite (@resolves_with_spread rt config exact_payload _ (or_intror (conj Hp Hr)) Hparse).
  reflexivity.
Qed.

Lemma C6_gemini_exact_payload_resolves_witness :
  result (performResearch (gemini_answers exact_payload)
            (config_for "gemini" (Some 0.7%float) "What is Rocq?"))
  = Normal (VObject [ (str "query", VString (str "What is Rocq?"));
                      (str "answer", VString (str "x"));
                      (str "followUpQuestions", VArray [VString (str "y")]);
                      (str "confidence", VNumber 0.9%float) ]).
Proof.
  apply (@C6_gemini_exact_payload_resolves (gemini_answers exact_payload)
           (config_for "gemini" (Some 0.7%float) "What is Rocq?")).
  - discriminate.
  - eexists. split; reflexivity.
Defined.

(** ** Dispatch *)

(** C7: [performResearch] branches two ways on [config.provider]: the
    OpenAI path when it is "openai", the Gemini path for every other
    value; the one request it issues goes to the provider of that path. *)
Theorem C7_two_way_dispatch rt config :
  (provider config = str "openai" ->
   performResearch rt config = api_error_catch rt (performOpenAIResearch rt config)
   /\ calls (performResearch rt config)
      = [OpenAI_create (openai_client config) (openai_params config)])
  /\ (provider config <> str "openai" ->
      performResearch rt config = api_error_catch rt (performGeminiResearch rt config)
      /\ calls (performResearch rt config)
         = [Gemini_generateContent (apiKey config)
              (string_or (model config) (str "gemini-pro")) (gemini_request config)]).
Proof.
  split; intros Hp; rewrite performResearch_unfold.
  - rewrite (@selected_path_openai rt config Hp).
    split; [reflexivity | apply openai_path_calls].
  - rewrite (@selected_path_gemini rt config Hp).
    split; [reflexivity | apply gemini_path_calls].
Qed.

Lemma C7_two_way_dispatch_witness :
  (exists client params,
     calls (performResearch (gemini_answers exact_payload)
              (config_for "openai" None "What is Rocq?"))
     = [OpenAI_create client params])
  /\ (exists key name request,
        calls (performResearch (gemini_answers exact_payload)
                 (config_for "gemini" None "What is Rocq?"))
        = [Gemini_generateContent key name request])
  /\ (exists key name request,
        calls (performResearch (gemini_answers exact_payload)
                 (config_for "anthropic" None "What is Rocq?"))
        = [Gemini_generateContent key name request]).
Proof.
  split; [|split].
  - destruct (C7_two_way_dispatch (gemini_answers exact_payload)
                (config_for "openai" None "What is Rocq?")) as [H _].
    destruct (H eq_refl) as [_ Hc]. do 2 eexists. exact Hc.
  - destruct (C7_two_way_dispatch (gemini_answers exact_payload)
                (config_for "gemini" None "What is Rocq?")) as [_ H].
    destruct H as [_ Hc]; [discriminate|]. do 3 eexists. exact Hc.
  - destruct (C7_two_way_dispatch (gemini_answers exact_payload)
                (config_for "anthropic" None "What is Rocq?")) as [_ H].
    destruct H as [_ Hc]; [discriminate|]. do 3 eexists. exact Hc.
Defined.

(** ** The unused limits *)

(** C8: two configs that differ only in [maxDepth] and [maxBranches] make
    [performResearch] issue the same requests and, against the same
    providers, settle the same way. *)
Theorem C8_limits_drive_no_behaviour rt c1 c2 :
  apiKey c1 = apiKey c2 ->
  provider c1 = provider c2 ->
  model c1 = model c2 ->
  temperature c1 = temperature c2 ->
  query c1 = query c2 ->
  performResearch rt c1 = performResearch rt c2.
Proof.
  destruct c1 as [k1 p1 m1 t1 q1 d1 b1], c2 as [k2 p2 m2 t2 q2 d2 b2].
  cbn [apiKey provider model temperature query].
  intros -> -> -> -> ->. reflexivity.
Qed.

Lemma C8_limits_drive_no_behaviour_witness :
  performResearch (gemini_answers exact_payload)
    {| apiKey := str "sk-test"; provider := str "gemini"; model := [];
       temperature := None; query := str "What is Rocq?";
       maxDepth := 1%float; maxBranches := 5%float |}
  = performResearch (gemini_answers exact_payload)
      {| apiKey := str "sk-test"; provider := str "gemini"; model := [];
         temperature := None; query := str "What is Rocq?";
         maxDepth := 4%float; maxBranches := 2%float |}.
Proof.
  apply C8_limits_drive_no_behaviour; reflexivity.
Defined.

(** ** The message of the rejection *)

Section ErrorMessage.

Variable rt : Runtime.

Lemma errorMessage_not_nullish e :
  nullish e = false ->
  errorMessage rt e
  = Normal (if truthy (nested_message e) then nested_message e
            else or_else (member e (str "message")) (vstr "Unknown error occurred")).
Proof.
  intros He. unfold errorMessage, nested_message, GetOptional, Get.
  rewrite He. cbn [bind].
  destruct (nullish (member e (str "error"))); cbn [bind truthy];
    [reflexivity|].
  destruct (truthy (member (member e (str "error")) (str "message")));
    reflexivity.
Qed.

Lemma errorMessage_nullish e :
  nullish e = true ->
  errorMessage rt e = Throw (TypeError (TypeError_message rt e (str "error"))).
Proof.
  intros He. unfold errorMessage, Get. rewrite He. reflexivity.
Qed.

End ErrorMessage.

(** C10, as the code has it: when the selected path throws a value that
    is not [null] or [undefined], a truthy nested [error.message] is the
    message reported: the rejection message is [API Error: ] followed by
    what the template literal prints for it, and where it cannot be
    printed (an object with an own [toString] that is not a function) the
    rejection is the TypeError of the conversion.  Without a truthy nested
    message, a truthy top-level [message] is reported in the same way;
    with neither, the rejection message is exactly
    [API Error: Unknown error occurred]. *)
Theorem C10_error_message_fallback rt config e :
  result (selected_path rt config) = Throw e ->
  nullish e = false ->
  (truthy (nested_message e) = true ->
   result (performResearch rt config)
   = (printed <- ToString rt (nested_message e) ;;
      Throw (Error (str "API Error: " ++ printed)))%js)
  /\ (truthy (nested_message e) = false ->
      truthy (member e (str "message")) = true ->
      result (performResearch rt config)
      = (printed <- ToString rt (member e (str "message")) ;;
         Throw (Error (str "API Error: " ++ printed)))%js)
  /\ (truthy (nested_message e) = false ->
      truthy (member e (str "message")) = false ->
      result (performResearch rt config)
      = Throw (Error (str "API Error: Unknown error occurred"))).
Proof.
  intros Hthrow He.
  rewrite performResearch_unfold. unfold result at 1 3 5. cbn [snd].
  rewrite Hthrow. cbn [try_catch]. unfold api_error.
  rewrite (errorMessage_not_nullish rt e He).
  cbn [bind]. unfold or_else.
  repeat split; intros Hn; rewrite Hn; try reflexivity;
    intros Hm; rewrite Hm; reflexivity.
Qed.

Lemma C10_error_message_fallback_witness :
  result (performResearch
            (scripted (Throw (obj [("error", obj [("message", vstr "quota exceeded")]);
                                   ("message", vstr "429 status")]%string))
                      (Throw VUndefined))
            (config_for "openai" None "What is Rocq?"))
  = Throw (Error (str "API Error: quota exceeded"))
  /\ result (performResearch
               (scripted (Throw (vstr "boom")) (Throw VUndefined))
               (config_for "openai" None "What is Rocq?"))
     = Throw (Error (str "API Error: Unknown error occurred"))
  /\ result (performResearch
               (scripted (Throw (obj [("message", Error (str "inner"))]%string))
                         (Throw VUndefined))
               (config_for "openai" None "What is Rocq?"))
     = Throw (Error (str "API Error: Error: inner"))
  /\ result (performResearch
               (scripted (Throw (obj [("message", obj [("toString", VNumber 1%float)])]%string))
                         (Throw VUndefined))
               (config_for "openai" None "What is Rocq?"))
     = Throw (TypeError (str "Cannot convert object to primitive value")).
Proof.
  split; [|split; [|split]].
  - destruct (@C10_error_message_fallback
                (scripted (Throw (obj [("error", obj [("message", vstr "quota exceeded")]);
                                       ("message", vstr "429 status")]%string))
                          (Throw VUndefined))
                (config_for "openai" None "What is Rocq?")
                (obj [("error", obj [("message", vstr "quota exceeded")]);
                      ("message", vstr "429 status")]%string)
                eq_refl eq_refl) as [Hnested _].
    apply Hnested. reflexivity.
  - destruct (@C10_error_message_fallback
                (scripted (Throw (vstr "boom")) (Throw VUndefined))
                (config_for "openai" None "What is Rocq?")
                (vstr "boom") eq_refl eq_refl) as (_ & _ & Hneither).
    apply Hneither; reflexivity.
  - destruct (@C10_error_message_fallback
                (scripted (Throw (obj [("message", Error (str "inner"))]%string))
                          (Throw VUndefined))
                (config_for "openai" None "What is Rocq?")
                (obj [("message", Error (str "inner"))]%string)
                eq_refl eq_refl) as (_ & Htop & _).
    apply Htop; reflexivity.
  - destruct (@C10_error_message_fallback
                (scripted (Throw (obj [("message", obj [("toString", VNumber 1%float)])]%string))
                          (Throw VUndefined))
                (config_for "openai" None "What is Rocq?")
                (obj [("message", obj [("toString", VNumber 1%float)])]%string)
                eq_refl eq_refl) as (_ & Htop & _).
    apply Htop; reflexivity.
Defined.

(** C10 as stated fails twice.  A thrown value whose nested
    [error.message] exists and is the empty string does not take
    precedence: the top-level message is reported.  A thrown [null] has
    neither field, and the rejection is the TypeError of reading
    [error.error], not [API Error: Unknown error occurred]. *)
Lemma C10_counterexample :
  let config := config_for "openai" None "What is Rocq?" in
  let rt1 := scripted (Throw thrown_with_empty_nested_message) (Throw VUndefined) in
  let rt2 := scripted (Throw VNull) (Throw VUndefined) in
  (result (selected_path rt1 config) = Throw thrown_with_empty_nested_message
   /\ lookup (str "message")
        (own_properties (member thrown_with_empty_nested_message (str "error")))
      = Some (VString [])
   /\ lookup (str "message") (own_properties thrown_with_empty_nested_message)
      = Some (vstr "boom")
   /\ result (performResearch rt1 config) = Throw (Error (str "API Error: boom"))
   /\ result (performResearch rt1 config) <> Throw (Error (str "API Error: ")))
  /\ (result (selected_path rt2 config) = Throw VNull
      /\ result (performResearch rt2 config)
         = Throw (TypeError (str "Cannot read properties of null (reading 'error')"))
      /\ result (performResearch rt2 config)
         <> Throw (Error (str "API Error: Unknown error occurred"))).
Proof.
  cbv zeta. repeat split; try (vm_compute; reflexivity); vm_compute; discriminate.
Qed.

(** ** The keys of a parsed object *)

Section Keys.

Implicit Types (k : jsstring) (v : Value) (ps : Props).















End Keys.

(** ** No validation of the shape *)



(** * Further properties of the adapter *)

(** ** How the paths settle *)

Section Settlement.

Variable rt : Runtime.
Variable config : ResearchConfig.

Lemma Get_ErrorInstance_message name m :
  Get rt (ErrorInstance name m) (str "message") = Normal (VString m).
Proof. reflexivity. Qed.

Lemma join_with_throws (f : Value -> Completion jsstring) (x : Value) l :
  (forall y t, In y l -> f y = Throw t -> t = x) ->
  forall t, join_with f l = Throw t -> t = x.
Proof.
  induction l as [|a l IH]; intros Hf t; [discriminate|].
  assert (Ha : forall t', (if nullish a then Normal [] else f a) = Throw t' -> t' = x).
  { intros t'. destruct (nullish a); [discriminate|]. apply Hf. left. reflexivity. }
  cbn [join_with]. destruct l as [|b l'].
  - apply Ha.
  - destruct (if nullish a then Normal [] else f a) as [sa | ta] eqn:Ea;
      cbn [bind].
    + destruct (join_with f (b :: l')) as [sb | tb] eqn:Eb; cbn [bind];
        [discriminate|].
      intros H. injection H as <-. apply IH; [|reflexivity].
      intros y t' Hy. apply Hf. right. exact Hy.
    + intros H. injection H as <-. apply Ha. reflexivity.
Qed.

Lemma own_string_throws (f : Value -> Completion jsstring) (x : Value)
  k inherited if_undefined ps :
  (forall y t, In y (map snd ps) -> f y = Throw t -> t = x) ->
  forall t, own_string f k inherited if_undefined ps = Throw t -> t = x.
Proof.
  induction ps as [|[k' v] ps IH]; intros Hf t; cbn [own_string];
    [discriminate|].
  destruct (JsString.eqb k k').
  - destruct v; try discriminate; apply Hf; left; reflexivity.
  - apply IH. intros y t' Hy. apply Hf. right. exact Hy.
Qed.

(** ToString throws nothing but the TypeError of a failed conversion. *)
Lemma ToString_throws : forall v t,
  ToString rt v = Throw t -> t = TypeError (ToPrimitive_message rt).
Proof.
  fix IH 1. intros v t. destruct v as [| |b|n|s0|elems|ps|name ps];
    cbn [ToString]; try discriminate.
  - destruct b; discriminate.
  - apply join_with_throws. intros y t' Hy. clear t.
    revert y t' Hy.
    induction elems as [|a elems IHl]; intros y t' Hy; [destruct Hy|].
    destruct Hy as [<- | Hy]; [apply IH | apply IHl, Hy].
  - destruct (has_key (str "toString") ps); [|discriminate].
    intros H. injection H as <-. reflexivity.
  - destruct (has_key (str "toString") ps).
    { intros H. injection H as <-. reflexivity. }
    assert (Hps : forall y t', In y (map snd ps) -> ToString rt y = Throw t' ->
                               t' = TypeError (ToPrimitive_message rt)).
    { clear t. induction ps as [|[k a] ps IHl]; intros y t' Hy;
        [destruct Hy|].
      destruct Hy as [<- | Hy]; [apply IH | apply IHl, Hy]. }
    destruct (own_string (ToString rt) (str "name") name (str "Error") ps)
      as [sn | tn] eqn:En; cbn [bind].
    + destruct (own_string (ToString rt) (str "message") [] [] ps)
        as [sm | tm] eqn:Em; cbn [bind]; [discriminate|].
      intros H. injection H as <-. revert Em. apply own_string_throws, Hps.
    + intros H. injection H as <-. revert En. apply own_string_throws, Hps.
Qed.

(** The inner [catch] of the Gemini path, on the value the SDK throws. *)
Lemma gemini_path_fails e :
  gemini_fails rt config e ->
  result (performGeminiResearch rt config)
  = if nullish e
    then Throw (TypeError (TypeError_message rt e (str "message")))
    else (printed <- ToString rt (member e (str "message")) ;;
          Throw (Error (str "Gemini API Error: " ++ printed)))%js.
Proof.
  intros Hf.
  unfold performGeminiResearch, result, try_catch_traced, and_then, generate.
  cbn [snd fst].
  destruct Hf as [Hcall | (generated & Hcall & Htext)]; rewrite Hcall;
    cbn [pure snd fst bind]; rewrite ?Htext; cbn [bind snd];
    unfold Get; destruct (nullish e); reflexivity.
Qed.

(** The Gemini path resolves or throws an instance of [Error] or of
    [TypeError]. *)
Lemma gemini_path_settles :
  (exists r, result (performGeminiResearch rt config) = Normal r)
  \/ (exists name m,
        result (performGeminiResearch rt config) = Throw (ErrorInstance name m)).
Proof.
  assert (Hfails : forall e, gemini_fails rt config e ->
            exists name m,
              result (performGeminiResearch rt config) = Throw (ErrorInstance name m)).
  { intros e Hf. rewrite (gemini_path_fails Hf).
    destruct (nullish e); [do 2 eexists; reflexivity|].
    destruct (ToString rt (member e (str "message"))) as [printed | t] eqn:Ep;
      cbn [bind].
    - do 2 eexists. reflexivity.
    - apply ToString_throws in Ep. subst t. do 2 eexists. reflexivity. }
  destruct (generateContent rt (apiKey config)
              (string_or (model config) (str "gemini-pro"))
              (gemini_request config)) as [generated | e] eqn:Hcall.
  - destruct (text (response generated)) as [body | e] eqn:Htext.
    + assert (Hr : gemini_replies rt config body) by (exists generated; auto).
      rewrite (gemini_path_body Hr).
      destruct (JSON.parse body); [left | right]; do 2 eexists; reflexivity.
    + right. apply (Hfails e). right. exists generated. auto.
  - right. apply (Hfails e). left. exact Hcall.
Qed.

(** The outer [catch] on a thrown instance of an error class that has
    only its message, whatever the message. *)
Lemma api_error_of_any_Error (o : Outcome) name (m : jsstring) :
  result o = Throw (ErrorInstance name m) ->
  try_catch (result o) (api_error rt)
  = Throw (Error (str "API Error: " ++ message_or m "Unknown error occurred")).
Proof.
  intros ->. destruct m as [|c m]; reflexivity.
Qed.

(** The outer [catch] throws [new Error] with the prefixed message, or
    the TypeError raised in the [catch] block itself: by reading
    [error.error] of [null] or [undefined], or by a message that cannot be
    printed. *)
Lemma api_error_throws e :
  (exists m, api_error rt e = Throw (Error (str "API Error: " ++ m)))
  \/ (nullish e = true
      /\ api_error rt e = Throw (TypeError (TypeError_message rt e (str "error"))))
  \/ (nullish e = false
      /\ api_error rt e = Throw (TypeError (ToPrimitive_message rt))).
Proof.
  unfold api_error. destruct (nullish e) eqn:He.
  - right. left. split; [reflexivity|].
    rewrite (errorMessage_nullish rt e He). reflexivity.
  - rewrite (errorMessage_not_nullish rt e He). cbn [bind].
    match goal with
    | |- context [ToString rt ?m] =>
        destruct (ToString rt m) as [printed | t] eqn:Ep; cbn [bind]
    end.
    + left. eexists. reflexivity.
    + right. right. apply ToString_throws in Ep. subst t. split; reflexivity.
Qed.

(** Every rejection of [performResearch] is an instance of an error class
    that has its message and nothing else. *)
Lemma rejection_is_ErrorInstance e :
  result (performResearch rt config) = Throw e ->
  exists name m, e = ErrorInstance name m.
Proof.
  rewrite performResearch_unfold. unfold result at 1. cbn [snd].
  destruct (result (selected_path rt config)) as [r | e']; cbn [try_catch].
  - discriminate.
  - destruct (api_error_throws e') as [(m & H) | [[_ H] | [_ H]]];
      rewrite H; intros H'; injection H' as <-; do 2 eexists; reflexivity.
Qed.

End Settlement.

(** ** Payloads and requests *)

Lemma query_echo_without_query_key_witness :
  exists r,
    result (performResearch (gemini_answers exact_payload)
              (config_for "gemini" None "What is Rocq?")) = Normal r
    /\ member r (str "query") = VString (str "What is Rocq?").
Proof.
  apply (@query_echo_without_query_key (gemini_answers exact_payload)
           (config_for "gemini" None "What is Rocq?") exact_payload
           (VObject [ (str "answer", VString (str "x"));
                      (str "followUpQuestions", VArray [VString (str "y")]);
                      (str "confidence", VNumber 0.9%float) ])).
  - right. split; [discriminate|]. eexists. split; reflexivity.
  - vm_compute. reflexivity.
  - reflexivity.
Defined.

(** X2: a payload that is valid JSON but has no properties to spread
    ([null], a boolean, a number, an empty string, array or object) is not
    an error: [performResearch] resolves to the object whose only property
    is [query]. *)
Theorem propertyless_payload_resolves_to_query_only rt config payload parsed :
  delivers rt config payload ->
  JSON.parse payload = Some parsed ->
  own_properties parsed = [] ->
  result (performResearch rt config)
  = Normal (VObject [(str "query", VString (query config))]).
Proof.
  intros Hd Hparse Hnone. rewrite (resolves_with_spread Hd Hparse).
  unfold spread. rewrite Hnone. reflexivity.
Qed.

Lemma propertyless_payload_resolves_to_query_only_witness :
  result (performResearch (openai_answers (str "null"))
            (config_for "openai" None "What is Rocq?"))
  = Normal (VObject [(str "query", VString (str "What is Rocq?"))]).
Proof.
  apply (@propertyless_payload_resolves_to_query_only
           (openai_answers (str "null"))
           (config_for "openai" None "What is Rocq?") (str "null") VNull).
  - left. split; [reflexivity|].
    exists (str "provide_research_response").
    eexists. eexists. split; reflexivity.
  - vm_compute. reflexivity.
  - reflexivity.
Defined.

(** X3: on the Gemini path the request carries the temperature of the
    config when it is a number other than 0 and NaN, and 0.7 when the
    config has none; top-p is 0.95 and top-k 40 either way. *)
Theorem gemini_request_temperature rt config :
  provider config <> str "openai" ->
  exists key name request,
    calls (performResearch rt config) = [Gemini_generateContent key name request]
    /\ (forall t, temperature config = Some t -> number_truthy t = true ->
                  gc_temperature (generationConfig request) = t)
    /\ (temperature config = None ->
        gc_temperature (generationConfig request) = 0.7%float)
    /\ topP (generationConfig request) = 0.95%float
    /\ topK (generationConfig request) = 40%float.
Proof.
  intros Hp. rewrite performResearch_unfold, (@selected_path_gemini rt config Hp).
  do 3 eexists. split; [apply gemini_path_calls|].
  cbn [generationConfig gemini_request]. repeat split.
  - intros t Ht Htruthy. apply (temperature_forwarded_when_truthy _ Ht Htruthy).
  - apply temperature_default_when_absent.
Qed.

Lemma gemini_request_temperature_witness :
  exists key name request,
    calls (performResearch (gemini_answers exact_payload)
             (config_for "gemini" (Some 0.2%float) "What is Rocq?"))
    = [Gemini_generateContent key name request]
    /\ gc_temperature (generationConfig request) = 0.2%float.
Proof.
  destruct (@gemini_request_temperature (gemini_answers exact_payload)
              (config_for "gemini" (Some 0.2%float) "What is Rocq?"))
    as (key & name & request & Hcalls & Hfwd & _).
  - discriminate.
  - exists key, name, request. split; [exact Hcalls|].
    apply Hfwd; reflexivity.
Defined.

(** X4: on the OpenAI path the temperature is not sent: two configs with
    provider "openai" that agree on the key, the model and the query issue
    the same request and settle the same way, whatever their
    temperatures. *)
Theorem openai_path_ignores_temperature rt c1 c2 :
  provider c1 = str "openai" ->
  provider c2 = str "openai" ->
  apiKey c1 = apiKey c2 ->
  model c1 = model c2 ->
  query c1 = query c2 ->
  performResearch rt c1 = performResearch rt c2.
Proof.
  intros Hp1 Hp2 Hk Hm Hq.
  rewrite !performResearch_unfold.
  rewrite (@selected_path_openai rt c1 Hp1), (@selected_path_openai rt c2 Hp2).
  assert (Hpath : performOpenAIResearch rt c1 = performOpenAIResearch rt c2).
  { unfold performOpenAIResearch, openai_client, openai_params, parse_and_spread.
    rewrite Hk, Hm, Hq. reflexivity. }
  rewrite Hpath. reflexivity.
Qed.

Lemma openai_path_ignores_temperature_witness :
  performResearch (openai_answers exact_payload)
    (config_for "openai" (Some 0%float) "What is Rocq?")
  = performResearch (openai_answers exact_payload)
      (config_for "openai" (Some 1%float) "What is Rocq?").
Proof.
  apply openai_path_ignores_temperature; reflexivity.
Defined.

(** X5: [performResearch] issues exactly one request.  The model it asks
    for is the model of the config when that is not the empty string;
    otherwise it is "gpt-4-0125-preview" on the OpenAI path and
    "gemini-pro" on the Gemini path. *)
Theorem requested_model_defaults rt config :
  exists c,
    calls (performResearch rt config) = [c]
    /\ (model config <> [] -> requested_model c = model config)
    /\ (model config = [] -> provider config = str "openai" ->
        requested_model c = str "gpt-4-0125-preview")
    /\ (model config = [] -> provider config <> str "openai" ->
        requested_model c = str "gemini-pro").
Proof.
  rewrite performResearch_unfold. unfold selected_path.
  destruct (JsString.eqb (provider config) (str "openai")) eqn:Hp.
  - eexists. split; [apply openai_path_calls|].
    cbn [requested_model cc_model openai_params]. repeat split.
    + intros Hm. destruct (model config); [congruence | reflexivity].
    + intros -> _. reflexivity.
    + intros _ Hne. apply jsstring_eqb_eq in Hp. congruence.
  - eexists. split; [apply gemini_path_calls|].
    cbn [requested_model]. repeat split.
    + intros Hm. destruct (model config); [congruence | reflexivity].
    + intros _ He. apply jsstring_eqb_neq in Hp. congruence.
    + intros -> _. reflexivity.
Qed.

Lemma requested_model_defaults_witness :
  (exists c,
     calls (performResearch (gemini_answers exact_payload)
              (config_for "gemini" None "What is Rocq?")) = [c]
     /\ requested_model c = str "gemini-pro")
  /\ (exists c,
        calls (performResearch (gemini_answers exact_payload)
                 (config_for "openai" None "What is Rocq?")) = [c]
        /\ requested_model c = str "gpt-4-0125-preview").
Proof.
  split.
  - destruct (requested_model_defaults (gemini_answers exact_payload)
                (config_for "gemini" None "What is Rocq?"))
      as (c & Hc & _ & _ & Hg).
    exists c. split; [exact Hc|]. apply Hg; [reflexivity | discriminate].
  - destruct (requested_model_defaults (gemini_answers exact_payload)
                (config_for "openai" None "What is Rocq?"))
      as (c & Hc & _ & Ho & _).
    exists c. split; [exact Hc|]. apply Ho; reflexivity.
Defined.

(** ** Failures *)

(** X6: when the Gemini SDK throws a value that is not [null] or
    [undefined], from [generateContent] or from [text()], the rejection of
    [performResearch] is made from the top-level [message] of that value
    alone; a nested [error.message] is not looked at on this path.  Where
    the template literal prints the message, the rejection message is
    [API Error: Gemini API Error: ] followed by what it prints
    ([undefined] when there is no message).  Where the message cannot be
    printed, the TypeError of the conversion is what the outer [catch]
    wraps: the rejection message is [API Error: ] followed by the message
    of that TypeError. *)
Theorem gemini_failure_is_double_wrapped rt config e :
  provider config <> str "openai" ->
  gemini_fails rt config e ->
  nullish e = false ->
  (forall printed,
     ToString rt (member e (str "message")) = Normal printed ->
     result (performResearch rt config)
     = Throw (Error (str "API Error: " ++ str "Gemini API Error: " ++ printed)))
  /\ (forall t,
        ToString rt (member e (str "message")) = Throw t ->
        result (performResearch rt config)
        = Throw (Error (str "API Error: "
                        ++ message_or (ToPrimitive_message rt)
                             "Unknown error occurred"))).
Proof.
  intros Hp Hf He.
  assert (Hpath : result (selected_path rt config)
                  = (printed <- ToString rt (member e (str "message")) ;;
                     Throw (Error (str "Gemini API Error: " ++ printed)))%js).
  { rewrite (@selected_path_gemini rt config Hp), (gemini_path_fails Hf), He.
    reflexivity. }
  rewrite performResearch_unfold. unfold result at 1 3. cbn [snd].
  split.
  - intros printed Hprinted. rewrite Hprinted in Hpath. cbn [bind] in Hpath.
    rewrite (api_error_of_any_Error rt (selected_path rt config) Hpath).
    reflexivity.
  - intros t Ht. pose proof (ToString_throws rt _ Ht) as ->.
    rewrite Ht in Hpath. cbn [bind] in Hpath.
    apply (api_error_of_any_Error rt (selected_path rt config) Hpath).
Qed.

Lemma gemini_failure_is_double_wrapped_witness :
  result (performResearch
            (scripted (Throw VUndefined)
               (Throw (obj [("error", obj [("message", vstr "quota exceeded")]);
                            ("message", vstr "fetch failed")]%string)))
            (config_for "gemini" None "What is Rocq?"))
  = Throw (Error (str "API Error: Gemini API Error: fetch failed"))
  /\ result (performResearch
               (scripted (Throw VUndefined) (Throw (vstr "boom")))
               (config_for "gemini" None "What is Rocq?"))
     = Throw (Error (str "API Error: Gemini API Error: undefined"))
  /\ result (performResearch
               (scripted (Throw VUndefined)
                  (Throw (obj [("message", obj [("toString", VNumber 1%float)])]%string)))
               (config_for "gemini" None "What is Rocq?"))
     = Throw (Error (str "API Error: Cannot convert object to primitive value")).
Proof.
  split; [|split].
  - destruct (@gemini_failure_is_double_wrapped
                (scripted (Throw VUndefined)
                   (Throw (obj [("error", obj [("message", vstr "quota exceeded")]);
                                ("message", vstr "fetch failed")]%string)))
                (config_for "gemini" None "What is Rocq?")
                (obj [("error", obj [("message", vstr "quota exceeded")]);
                      ("message", vstr "fetch failed")]%string)) as [Hprinted _].
    + discriminate.
    + left. reflexivity.
    + reflexivity.
    + apply Hprinted. reflexivity.
  - destruct (@gemini_failure_is_double_wrapped
                (scripted (Throw VUndefined) (Throw (vstr "boom")))
                (config_for "gemini" None "What is Rocq?") (vstr "boom"))
      as [Hprinted _].
    + discriminate.
    + left. reflexivity.
    + reflexivity.
    + apply Hprinted. reflexivity.
  - destruct (@gemini_failure_is_double_wrapped
                (scripted (Throw VUndefined)
                   (Throw (obj [("message", obj [("toString", VNumber 1%float)])]%string)))
                (config_for "gemini" None "What is Rocq?")
                (obj [("message", obj [("toString", VNumber 1%float)])]%string))
      as [_ Hthrows].
    + discriminate.
    + left. reflexivity.
    + reflexivity.
    + apply (Hthrows (TypeError (str "Cannot convert object to primitive value"))).
      reflexivity.
Defined.

(** X7: on the Gemini path every rejection of [performResearch] is an
    [Error] whose message begins with [API Error: ], whatever the SDK
    returns or throws, [null] and [undefined] included. *)
Theorem gemini_rejections_are_prefixed rt config e :
  provider config <> str "openai" ->
  result (performResearch rt config) = Throw e ->
  exists m, e = Error (str "API Error: " ++ m).
Proof.
  intros Hp. rewrite performResearch_unfold. unfold result at 1. cbn [snd].
  rewrite (@selected_path_gemini rt config Hp).
  destruct (gemini_path_settles rt config) as [(r & Hr) | (name & m & Hm)].
  - rewrite Hr. discriminate.
  - rewrite (api_error_of_any_Error rt (performGeminiResearch rt config) Hm).
    intros H. injection H as <-. eexists. reflexivity.
Qed.

Lemma gemini_rejections_are_prefixed_witness :
  exists m,
    Error (str "API Error: Cannot read properties of null (reading 'message')")
    = Error (str "API Error: " ++ m).
Proof.
  apply (@gemini_rejections_are_prefixed
           (scripted (Throw VUndefined) (Throw VNull))
           (config_for "gemini" None "What is Rocq?")).
  - discriminate.
  - reflexivity.
Defined.



(** X9: on the OpenAI path, a completion with an empty [choices] array
    makes [response.choices[0].message] a TypeError; [performResearch]
    rejects with [API Error: ] followed by the message of that TypeError
    ([Unknown error occurred] if the engine gives it none). *)
Theorem openai_empty_choices_rejects rt config completion :
  provider config = str "openai" ->
  chat_completions_create rt (openai_client config) (openai_params config)
  = Normal completion ->
  choices completion = [] ->
  result (performResearch rt config)
  = Throw (Error (str "API Error: "
                  ++ message_or (TypeError_message rt VUndefined (str "message"))
                       "Unknown error occurred")).
Proof.
  intros Hp Hcall Hchoices.
  rewrite performResearch_unfold. unfold result at 1. cbn [snd].
  apply (@api_error_of_any_Error rt (selected_path rt config) "TypeError"%string).
  rewrite (@selected_path_openai rt config Hp).
  unfold performOpenAIResearch, result, and_then, create. cbn [snd fst].
  rewrite Hcall. cbn [pure snd bind]. rewrite Hchoices. reflexivity.
Qed.

Lemma openai_empty_choices_rejects_witness :
  result (performResearch
            (scripted (Normal {| choices := [] |}) (Throw VUndefined))
            (config_for "openai" None "What is Rocq?"))
  = Throw (Error (str "API Error: Cannot read properties of undefined (reading 'message')")).
Proof.
  apply (@openai_empty_choices_rejects
           (scripted (Normal {| choices := [] |}) (Throw VUndefined))
           (config_for "openai" None "What is Rocq?") {| choices := [] |});
    reflexivity.
Defined.

(** ** No JSON is extracted from a longer answer *)

Lemma isc_zero_is_digit c : JSON.isc "0" c = true -> is_digit c = true.
Proof.
  unfold JSON.isc. intros H. apply N.eqb_eq in H. subst c. reflexivity.
Qed.

(** A text whose first code unit is neither white space nor the beginning
    of a JSON value is not JSON, whatever follows. *)
Lemma parse_rejects_bad_start c rest :
  JSON.is_ws c = false ->
  starts_value c = false ->
  JSON.parse (c :: rest) = None.
Proof.
  intros Hws Hstart. unfold starts_value in Hstart.
  repeat (apply orb_false_iff in Hstart; destruct Hstart as [Hstart ?]).
  unfold JSON.parse. rewrite Nat.add_1_r.
  cbn [JSON.parse_value JSON.skip_ws]. rewrite Hws.
  unfold JSON.parse_number, JSON.parse_int.
  repeat match goal with
         | H : JSON.isc _ c = false |- _ => rewrite H; clear H
         end.
  destruct (JSON.isc "0" c) eqn:Hz.
  - apply isc_zero_is_digit in Hz. congruence.
  - match goal with H : is_digit c = false |- _ => rewrite H end.
    reflexivity.
Qed.

(** X10: an answer that begins with anything but white space or the first
    character of a JSON value (a markdown fence, a sentence) is rejected
    as a whole, whatever JSON it contains further on: on the OpenAI path
    with [API Error: Failed to parse model response], on the Gemini path
    with the doubly wrapped parse message. *)
Theorem answer_with_leading_text_rejects rt config c rest :
  delivers rt config (c :: rest) ->
  JSON.is_ws c = false ->
  starts_value c = false ->
  result (performResearch rt config)
  = Throw (Error
      (if JsString.eqb (provider config) (str "openai")
       then str "API Error: Failed to parse model response"
       else str "API Error: Gemini API Error: Failed to parse Gemini response. The model did not return valid JSON.")).
Proof.
  intros Hd Hws Hstart.
  pose proof (@parse_rejects_bad_start c rest Hws Hstart) as Hparse.
  rewrite performResearch_unfold. unfold result at 1. cbn [snd].
  destruct Hd as [[Hp (name & Hr)] | [Hp Hr]].
  - rewrite Hp, jsstring_eqb_refl.
    apply api_error_of_Error; [discriminate|].
    rewrite (@selected_path_openai rt config Hp), (openai_path_first Hr).
    cbn [function_call arguments]. apply parse_and_spread_invalid, Hparse.
  - pose proof Hp as Hb. apply jsstring_eqb_neq in Hb. rewrite Hb.
    apply api_error_of_Error; [discriminate|].
    rewrite (@selected_path_gemini rt config Hp), (gemini_path_body Hr), Hparse.
    reflexivity.
Qed.

Lemma answer_with_leading_text_rejects_witness :
  result (performResearch
            (gemini_answers (str "Here is the JSON: " ++ exact_payload))
            (config_for "gemini" None "What is Rocq?"))
  = Throw (Error (str "API Error: Gemini API Error: Failed to parse Gemini response. The model did not return valid JSON.")).
Proof.
  apply (@answer_with_leading_text_rejects
           (gemini_answers (str "Here is the JSON: " ++ exact_payload))
           (config_for "gemini" None "What is Rocq?")
           72%N (str "ere is the JSON: " ++ exact_payload)).
  - right. split; [discriminate|]. eexists. split; reflexivity.
  - reflexivity.
  - reflexivity.
Defined.

(** * Properties of the form *)

(** ** Expanding and collapsing results *)

Lemma existsb_eqb_In index (l : list nat) :
  existsb (Nat.eqb index) l = true <-> In index l.
Proof.
  rewrite existsb_exists. split.
  - intros (x & Hin & Heq). apply Nat.eqb_eq in Heq. subst. exact Hin.
  - intros Hin. exists index. split; [exact Hin | apply Nat.eqb_refl].
Qed.

Lemma existsb_eqb_not_In index (l : list nat) :
  existsb (Nat.eqb index) l = false <-> ~ In index l.
Proof.
  rewrite <- existsb_eqb_In. destruct (existsb (Nat.eqb index) l);
    split; congruence.
Qed.

Lemma filter_other_In index j (l : list nat) :
  In j (filter (fun i => negb (Nat.eqb i index)) l) <-> j <> index /\ In j l.
Proof.
  rewrite filter_In, negb_true_iff, Nat.eqb_neq. tauto.
Qed.

Lemma filter_other_absent index (l : list nat) :
  ~ In index l -> filter (fun i => negb (Nat.eqb i index)) l = l.
Proof.
  induction l as [|x l IH]; simpl; intros Hnot; [reflexivity|].
  destruct (Nat.eqb_spec x index) as [-> | Hne]; simpl.
  - tauto.
  - rewrite IH by tauto. reflexivity.
Qed.

(** X11: [toggleExpanded(index)] flips whether [index] is expanded and
    changes nothing for any other index: afterwards [j] is in the list
    exactly when it is another index that was in it, or it is [index] and
    [index] was not in it. *)
Theorem toggleExpanded_membership index prev j :
  In j (App.toggleExpanded index prev)
  <-> (j <> index /\ In j prev) \/ (j = index /\ ~ In index prev).
Proof.
  unfold App.toggleExpanded.
  destruct (existsb (Nat.eqb index) prev) eqn:E.
  - apply existsb_eqb_In in E. rewrite filter_other_In. tauto.
  - apply existsb_eqb_not_In in E. rewrite in_app_iff. simpl.
    destruct (Nat.eq_dec j index) as [-> | Hne]; [tauto|].
    split.
    + intros [H | [H | []]]; [tauto | congruence].
    + intros [[_ H] | [H _]]; [tauto | congruence].
Qed.

(** X12: [toggleExpanded] keeps the list of expanded indices free of
    duplicates. *)
Theorem toggleExpanded_NoDup index prev :
  NoDup prev -> NoDup (App.toggleExpanded index prev).
Proof.
  intros Hnd. unfold App.toggleExpanded.
  destruct (existsb (Nat.eqb index) prev) eqn:E.
  - apply NoDup_filter, Hnd.
  - apply existsb_eqb_not_In in E.
    apply NoDup_app; [exact Hnd | constructor; [tauto | constructor] |].
    intros a Ha [<- | []]. tauto.
Qed.

Lemma toggleExpanded_NoDup_witness :
  NoDup (App.toggleExpanded 2 (App.toggleExpanded 0 [0; 1])).
Proof.
  apply toggleExpanded_NoDup. apply toggleExpanded_NoDup.
  constructor; [simpl; intros [H | []]; discriminate|].
  constructor; [simpl; tauto | constructor].
Defined.

(** X13: toggling the same index twice leaves every index expanded or
    collapsed as it was; when the index was collapsed to begin with, the
    list itself is back to what it was. *)
Theorem toggleExpanded_twice index prev :
  (forall j, In j (App.toggleExpanded index (App.toggleExpanded index prev))
             <-> In j prev)
  /\ (~ In index prev ->
      App.toggleExpanded index (App.toggleExpanded index prev) = prev).
Proof.
  split.
  - intros j.
    unfold App.toggleExpanded at 1.
    destruct (existsb (Nat.eqb index) (App.toggleExpanded index prev)) eqn:E.
    + apply existsb_eqb_In in E. unfold App.toggleExpanded in E |- *.
      destruct (existsb (Nat.eqb index) prev) eqn:E0.
      * apply filter_other_In in E. tauto.
      * apply existsb_eqb_not_In in E0.
        rewrite filter_other_In, in_app_iff. simpl.
        split.
        -- intros [Hne [H | [H | []]]]; [exact H | congruence].
        -- intros H. split; [intros ->; tauto | tauto].
    + apply existsb_eqb_not_In in E. unfold App.toggleExpanded in E |- *.
      destruct (existsb (Nat.eqb index) prev) eqn:E0.
      * apply existsb_eqb_In in E0.
        rewrite in_app_iff, filter_other_In. simpl.
        destruct (Nat.eq_dec j index) as [-> | Hne]; [tauto|].
        split.
        -- intros [[_ H] | [H | []]]; [exact H | congruence].
        -- tauto.
      * exfalso. apply E. rewrite in_app_iff. simpl. tauto.
  - intros Hnot. unfold App.toggleExpanded.
    pose proof Hnot as E0. apply existsb_eqb_not_In in E0. rewrite E0.
    assert (E : existsb (Nat.eqb index) (prev ++ [index]) = true).
    { apply existsb_eqb_In. rewrite in_app_iff. simpl. tauto. }
    rewrite E, filter_app. simpl. rewrite Nat.eqb_refl. simpl.
    rewrite filter_other_absent by exact Hnot. apply app_nil_r.
Qed.

Lemma toggleExpanded_twice_witness :
  App.toggleExpanded 3 (App.toggleExpanded 3 [0; 1]) = [0; 1].
Proof.
  apply (proj2 (toggleExpanded_twice 3 [0; 1])).
  simpl. intros [H | [H | []]]; discriminate.
Defined.

(** ** Submitting the form *)

Section Submit.

Variable rt : Runtime.
Variable st : App.State.

Lemma run_requests (cs : list Call) (s0 : App.State) :
  App.run s0 (map App.Request cs) = s0.
Proof.
  unfold App.run. revert s0. induction cs as [|c cs IH]; intros s0; simpl.
  - reflexivity.
  - apply IH.
Qed.

Lemma run_app (s0 : App.State) (xs ys : list App.Action) :
  App.run s0 (xs ++ ys) = App.run (App.run s0 xs) ys.
Proof. unfold App.run. apply fold_left_app. Qed.

(** The state when the request leaves. *)
Lemma run_started :
  App.run st ([App.PreventDefault; App.SetLoading true; App.SetError VNull]
              ++ map App.Request (calls (performResearch rt (App.config st))))
  = {| App.config := App.config st; App.loading := true; App.error := VNull;
       App.results := App.results st;
       App.expandedResults := App.expandedResults st |}.
Proof. rewrite run_app, run_requests. reflexivity. Qed.

Lemma handleSubmit_resolved r :
  result (performResearch rt (App.config st)) = Normal r ->
  App.handleSubmit rt st
  = ([App.PreventDefault; App.SetLoading true; App.SetError VNull]
     ++ map App.Request (calls (performResearch rt (App.config st)))
     ++ [App.SetResults (r :: App.results st); App.SetExpandedResults [0];
         App.SetLoading false],
     Normal tt).
Proof.
  intros Hr. unfold result in Hr.
  unfold App.handleSubmit, try_finally, try_catch_traced, and_then, map_events,
    emit, pure, calls.
  cbn [fst snd]. rewrite Hr. cbn [fst snd app].
  rewrite <- !app_assoc. reflexivity.
Qed.

Lemma handleSubmit_rejected name m :
  result (performResearch rt (App.config st)) = Throw (ErrorInstance name m) ->
  App.handleSubmit rt st
  = ([App.PreventDefault; App.SetLoading true; App.SetError VNull]
     ++ map App.Request (calls (performResearch rt (App.config st)))
     ++ [App.ConsoleError (str "Research failed:") (ErrorInstance name m);
         App.SetError
           (VString (message_or m "An unexpected error occurred. Please try again."));
         App.SetLoading false],
     Normal tt).
Proof.
  intros Hr. unfold result in Hr.
  unfold App.handleSubmit, try_finally, try_catch_traced, and_then, map_events,
    emit, pure, calls.
  cbn [fst snd]. rewrite Hr. cbn [fst snd app].
  rewrite Get_ErrorInstance_message. cbn [fst snd app].
  rewrite <- !app_assoc. destruct m; reflexivity.
Qed.

End Submit.

(** X14: [handleSubmit] never throws, whatever the provider does: the
    rejection of [performResearch] is always an object whose [message]
    can be read.  When it finishes [loading] is false again and the config
    is the one submitted. *)
Theorem handleSubmit_completes rt st :
  snd (App.handleSubmit rt st) = Normal tt
  /\ App.loading (App.submitted rt st) = false
  /\ App.config (App.submitted rt st) = App.config st.
Proof.
  unfold App.submitted.
  destruct (result (performResearch rt (App.config st))) as [r | e] eqn:Hres.
  - rewrite (handleSubmit_resolved rt st Hres). cbn [fst snd].
    rewrite app_assoc, run_app, run_started. repeat split.
  - destruct (rejection_is_ErrorInstance rt (App.config st) Hres)
      as (name & m & ->).
    rewrite (handleSubmit_rejected rt st Hres). cbn [fst snd].
    rewrite app_assoc, run_app, run_started. repeat split.
Qed.

(** X15: after a submit that resolves, the new result is the first of
    [results] with the earlier ones behind it in their order, only index 0
    is expanded, and no error is shown. *)
Theorem handleSubmit_success rt st r :
  result (performResearch rt (App.config st)) = Normal r ->
  App.submitted rt st
  = {| App.config := App.config st;
       App.loading := false;
       App.error := VNull;
       App.results := r :: App.results st;
       App.expandedResults := [0] |}.
Proof.
  intros Hres. unfold App.submitted.
  rewrite (handleSubmit_resolved rt st Hres). cbn [fst].
  rewrite app_assoc, run_app, run_started. reflexivity.
Qed.

Lemma handleSubmit_success_witness :
  App.results
    (App.submitted (gemini_answers exact_payload)
       {| App.config := config_for "gemini" None "What is Rocq?";
          App.loading := false; App.error := vstr "API Error: earlier";
          App.results := [VObject []]; App.expandedResults := [0; 3] |})
  = [ VObject [ (str "query", VString (str "What is Rocq?"));
                (str "answer", VString (str "x"));
                (str "followUpQuestions", VArray [VString (str "y")]);
                (str "confidence", VNumber 0.9%float) ];
      VObject [] ].
Proof.
  rewrite (@handleSubmit_success (gemini_answers exact_payload)
             {| App.config := config_for "gemini" None "What is Rocq?";
                App.loading := false; App.error := vstr "API Error: earlier";
                App.results := [VObject []]; App.expandedResults := [0; 3] |}
             (VObject [ (str "query", VString (str "What is Rocq?"));
                        (str "answer", VString (str "x"));
                        (str "followUpQuestions", VArray [VString (str "y")]);
                        (str "confidence", VNumber 0.9%float) ])).
  - reflexivity.
  - vm_compute. reflexivity.
Defined.

(** X16: after a submit that rejects, [results] and [expandedResults] are
    what they were, and the error shown is the message of the rejection,
    which is always an instance of an error class with a string message;
    the fallback text is shown only for an empty message.  On the Gemini
    path the error shown begins with [API Error: ]. *)
Theorem handleSubmit_failure rt st e :
  result (performResearch rt (App.config st)) = Throw e ->
  exists name m,
    e = ErrorInstance name m
    /\ App.submitted rt st
       = {| App.config := App.config st;
            App.loading := false;
            App.error :=
              VString (message_or m "An unexpected error occurred. Please try again.");
            App.results := App.results st;
            App.expandedResults := App.expandedResults st |}
    /\ (provider (App.config st) <> str "openai" ->
        exists m', App.error (App.submitted rt st)
                   = VString (str "API Error: " ++ m')).
Proof.
  intros Hres.
  destruct (rejection_is_ErrorInstance rt (App.config st) Hres)
    as (name & m & ->).
  exists name, m. split; [reflexivity|].
  assert (Hst : App.submitted rt st
                = {| App.config := App.config st;
                     App.loading := false;
                     App.error :=
                       VString (message_or m "An unexpected error occurred. Please try again.");
                     App.results := App.results st;
                     App.expandedResults := App.expandedResults st |}).
  { unfold App.submitted. rewrite (handleSubmit_rejected rt st Hres). cbn [fst].
    rewrite app_assoc, run_app, run_started. reflexivity. }
  split; [exact Hst|].
  intros Hp. rewrite Hst. cbn [App.error].
  revert Hres. rewrite performResearch_unfold. unfold result at 1. cbn [snd].
  rewrite (@selected_path_gemini rt (App.config st) Hp).
  destruct (gemini_path_settles rt (App.config st))
    as [(r & Hr) | (name0 & m0 & Hm0)].
  - rewrite Hr. discriminate.
  - rewrite (api_error_of_any_Error rt (performGeminiResearch rt (App.config st)) Hm0).
    intros H. injection H as _ <-. eexists. reflexivity.
Qed.

Lemma handleSubmit_failure_witness :
  exists name m,
    Error (str "API Error: Gemini API Error: Failed to parse Gemini response. The model did not return valid JSON.")
    = ErrorInstance name m
    /\ App.submitted (gemini_answers fenced_payload)
         {| App.config := config_for "gemini" None "What is Rocq?";
            App.loading := false; App.error := VNull;
            App.results := [VObject []]; App.expandedResults := [0] |}
       = {| App.config := config_for "gemini" None "What is Rocq?";
            App.loading := false;
            App.error :=
              VString (message_or m "An unexpected error occurred. Please try again.");
            App.results := [VObject []];
            App.expandedResults := [0] |}.
Proof.
  destruct (@handleSubmit_failure (gemini_answers fenced_payload)
              {| App.config := config_for "gemini" None "What is Rocq?";
                 App.loading := false; App.error := VNull;
                 App.results := [VObject []]; App.expandedResults := [0] |}
              (Error (str "API Error: Gemini API Error: Failed to parse Gemini response. The model did not return valid JSON.")))
    as (name & m & Hm & Hst & _).
  - vm_compute. reflexivity.
  - exists name, m. split; [exact Hm | exact Hst].
Defined.

Lemma performResearch_one_call rt config :
  exists c,
    calls (performResearch rt config) = [c]
    /\ to_openai c = JsString.eqb (provider config) (str "openai")
    /\ requested_model c
       = string_or (model config)
           (if JsString.eqb (provider config) (str "openai")
            then str "gpt-4-0125-preview" else str "gemini-pro").
Proof.
  rewrite performResearch_unfold. unfold selected_path.
  destruct (JsString.eqb (provider config) (str "openai"));
    eexists; (split; [first [apply openai_path_calls | apply gemini_path_calls]|]);
    split; reflexivity.
Qed.

(** X17: a submit sends exactly one request to a provider, with no retry
    after a failure, and sends it only after [loading] is set, which
    disables the submit button, and after the error of the previous submit
    is cleared. *)
Theorem handleSubmit_one_request rt st :
  exists pre c post,
    fst (App.handleSubmit rt st) = pre ++ App.Request c :: post
    /\ forallb (fun a => negb (is_request a)) pre = true
    /\ forallb (fun a => negb (is_request a)) post = true
    /\ App.loading (App.run st pre) = true
    /\ App.error (App.run st pre) = VNull
    /\ App.submitDisabled (App.run st pre) = true.
Proof.
  destruct (performResearch_one_call rt (App.config st)) as (c & Hc & _).
  exists [App.PreventDefault; App.SetLoading true; App.SetError VNull], c.
  destruct (result (performResearch rt (App.config st))) as [r | e] eqn:Hres.
  - rewrite (handleSubmit_resolved rt st Hres), Hc. cbn [fst map].
    eexists. split; [reflexivity|]. repeat split.
  - destruct (rejection_is_ErrorInstance rt (App.config st) Hres)
      as (name & m & ->).
    rewrite (handleSubmit_rejected rt st Hres), Hc. cbn [fst map].
    eexists. split; [reflexivity|]. repeat split.
Qed.

(** ** Choosing the provider *)

(** X18: after the provider select changes to [value], the next request
    goes to OpenAI exactly when [value] is "openai", and it asks for the
    default model of the provider chosen, whatever the model field held
    before; key and query are the ones of the form. *)
Theorem provider_change_resets_model rt value c :
  exists call,
    calls (performResearch rt (App.onProviderChange value c)) = [call]
    /\ to_openai call = JsString.eqb value (str "openai")
    /\ requested_model call
       = (if JsString.eqb value (str "openai")
          then str "gpt-4-0125-preview" else str "gemini-pro")
    /\ apiKey (App.onProviderChange value c) = apiKey c
    /\ query (App.onProviderChange value c) = query c.
Proof.
  destruct (performResearch_one_call rt (App.onProviderChange value c))
    as (call & Hcall & Hto & Hmodel).
  exists call. split; [exact Hcall|]. split; [exact Hto|].
  split; [|split; reflexivity].
  rewrite Hmodel. cbn [App.onProviderChange provider model].
  destruct (JsString.eqb value (str "openai")); reflexivity.
Qed.

(** * Normalisation across the providers *)

(** X19: the two paths normalise to the same result: when the providers
    selected by two configs deliver the same payload and it parses, the
    values resolved are equal as soon as the queries are, whatever the
    providers, keys, models and temperatures. *)
Theorem resolved_value_depends_on_payload_and_query
  rt1 rt2 c1 c2 payload parsed :
  delivers rt1 c1 payload ->
  delivers rt2 c2 payload ->
  JSON.parse payload = Some parsed ->
  query c1 = query c2 ->
  result (performResearch rt1 c1) = result (performResearch rt2 c2).
Proof.
  intros Hd1 Hd2 Hparse Hq.
  rewrite (resolves_with_spread Hd1 Hparse), (resolves_with_spread Hd2 Hparse), Hq.
  reflexivity.
Qed.

Lemma resolved_value_depends_on_payload_and_query_witness :
  result (performResearch (openai_answers exact_payload)
            (config_for "openai" (Some 1%float) "What is Rocq?"))
  = result (performResearch (gemini_answers exact_payload)
              (config_for "gemini" None "What is Rocq?")).
Proof.
  apply (@resolved_value_depends_on_payload_and_query
           (openai_answers exact_payload) (gemini_answers exact_payload)
           (config_for "openai" (Some 1%float) "What is Rocq?")
           (config_for "gemini" None "What is Rocq?")
           exact_payload
           (VObject [ (str "answer", VString (str "x"));
                      (str "followUpQuestions", VArray [VString (str "y")]);
                      (str "confidence", VNumber 0.9%float) ])).
  - left. split; [reflexivity|].
    exists (str "provide_research_response").
    eexists. eexists. split; reflexivity.
  - right. split; [discriminate|]. eexists. split; reflexivity.
  - vm_compute. reflexivity.
  - reflexivity.
Defined.

(** X20: on the OpenAI path only the [arguments] of the function call of
    the first choice are read: the name of the function called is not
    checked and the other choices are not looked at.  Two answers whose
    first choices carry function calls with the same arguments settle
    [performResearch] the same way. *)
Theorem openai_reads_only_first_arguments rt1 rt2 config fc1 fc2 :
  provider config = str "openai" ->
  openai_replies rt1 config {| function_call := Some fc1 |} ->
  openai_replies rt2 config {| function_call := Some fc2 |} ->
  arguments fc1 = arguments fc2 ->
  result (performResearch rt1 config) = result (performResearch rt2 config).
Proof.
  intros Hp Hr1 Hr2 Hargs.
  rewrite !performResearch_unfold. unfold result at 1 3. cbn [snd].
  rewrite (@selected_path_openai rt1 config Hp), (@selected_path_openai rt2 config Hp).
  rewrite (openai_path_first Hr1), (openai_path_first Hr2).
  cbn [function_call]. rewrite Hargs.
  destruct (parse_and_spread config (arguments fc2)
              (str "Failed to parse model response")) as [r | e] eqn:E.
  - reflexivity.
  - unfold parse_and_spread in E.
    destruct (JSON.parse (arguments fc2)); [discriminate|].
    cbn [try_catch] in E. injection E as <-. reflexivity.
Qed.

Lemma openai_reads_only_first_arguments_witness :
  result (performResearch
            (scripted
               (Normal {| choices :=
                  [ {| message := {| function_call :=
                         Some {| fc_name := str "something_else";
                                 arguments := exact_payload |} |} |};
                    {| message := {| function_call := None |} |} ] |})
               (Throw VUndefined))
            (config_for "openai" None "What is Rocq?"))
  = result (performResearch (openai_answers exact_payload)
              (config_for "openai" None "What is Rocq?")).
Proof.
  apply (@openai_reads_only_first_arguments _ _
           (config_for "openai" None "What is Rocq?")
           {| fc_name := str "something_else"; arguments := exact_payload |}
           (function_call_with exact_payload)).
  - reflexivity.
  - eexists. eexists. split; reflexivity.
  - eexists. eexists. split; reflexivity.
  - reflexivity.
Defined.
